(** * lacosta-back: product catalogue API behind a shared-secret gate

    A shallow embedding of the Express handlers of the repository:

    - [src/middleware/auth.ts]               (module [Auth])
    - [src/controllers/authController.ts]    (module [AuthController]; the
      copy of the same controller that goes through [getCookieConfig] is
      module [AuthControllerCfg])
    - [src/utils/cookieConfig.ts]            (module [CookieConfig])
    - [src/services/s3Service.ts]            (module [S3Service])
    - [src/models/Product.ts]                (module [ProductModel])
    - [src/controllers/productController.ts] (module [ProductController])

    Handlers are functions from a request (and, where they touch it, the
    product table) to the response they send.  The libraries the handlers
    call (bcrypt, the URL parser, the S3 presigner) are section variables;
    the relational store is an in-memory table. *)

From Stdlib Require Import List String Ascii ZArith Bool Lia.
From Stdlib Require Import Sorting.Sorted Sorting.Permutation.
Import ListNotations.

Set Warnings "-register-all".

Open Scope string_scope.
Open Scope Z_scope.

Notation "x |> f" := (f x) (at level 50, left associativity, only parsing).

(* ================================================================== *)
(** ** JavaScript values                                                *)
(* ================================================================== *)

Module JS.

(** The values that reach the handlers through cookies and JSON bodies.
    [VObj] stands for any object or array (cookie-parser yields one for
    a [j:]-prefixed cookie). *)
Inductive value :=
| VUndefined
| VNull
| VBool (b : bool)
| VNum (n : Z)
| VStr (s : string)
| VObj.

Definition str_truthy (s : string) : bool := negb (s =? "")%string.

(** ToBoolean *)
Definition truthy (v : value) : bool :=
  match v with
  | VUndefined | VNull => false
  | VBool b => b
  | VNum n => negb (n =? 0)
  | VStr s => str_truthy s
  | VObj => true
  end.

(** Truthiness of [string | undefined] (environment variables, query
    parameters). *)
Definition opt_truthy (o : option string) : bool :=
  match o with
  | Some s => str_truthy s
  | None => false
  end.

(** The string behind a truthy [string | undefined]. *)
Definition nonempty (o : option string) : option string :=
  match o with
  | Some s => if str_truthy s then Some s else None
  | None => None
  end.

(** [a || b] on [string | undefined] with a string default. *)
Definition or_default (o : option string) (d : string) : string :=
  match o with
  | Some s => if str_truthy s then s else d
  | None => d
  end.

(** [s.includes(sub)] *)
Fixpoint includes (s sub : string) : bool :=
  (String.prefix sub s ||
   match s with
   | EmptyString => false
   | String _ s' => includes s' sub
   end)%bool.

(** Numbers as the handlers meet them: integers, [NaN] (from [parseInt])
    and the infinities (from a division by zero). *)
Inductive number :=
| Num (z : Z)
| NaN
| PosInf
| NegInf.

Definition sub (a b : number) : number :=
  match a, b with
  | Num x, Num y => Num (x - y)
  | NaN, _ | _, NaN => NaN
  | PosInf, PosInf | NegInf, NegInf => NaN
  | PosInf, _ | _, NegInf => PosInf
  | NegInf, _ | _, PosInf => NegInf
  end.

Definition sgn (a : number) : Z :=
  match a with
  | Num x => Z.sgn x
  | PosInf => 1
  | NegInf => -1
  | NaN => 0
  end.

Definition mul (a b : number) : number :=
  match a, b with
  | Num x, Num y => Num (x * y)
  | NaN, _ | _, NaN => NaN
  | _, _ =>
      match sgn a * sgn b with
      | 0 => NaN
      | Zpos _ => PosInf
      | Zneg _ => NegInf
      end
  end.

(** [Math.ceil(a / b)] on integers: the quotient is never materialised,
    so no fraction is needed.  [Z.div] rounds towards minus infinity for
    either sign of the divisor. *)
Definition ceil_div (a b : number) : number :=
  match a, b with
  | Num x, Num y =>
      if y =? 0 then
        match x with
        | 0 => NaN
        | Zpos _ => PosInf
        | Zneg _ => NegInf
        end
      else Num (- ((- x) / y))
  | _, _ => NaN
  end.

(** *** [parseInt(s, 10)] *)

Definition is_space (c : ascii) : bool :=
  let n := nat_of_ascii c in
  (Nat.eqb n 32 || (Nat.leb 9 n && Nat.leb n 13))%bool.

Definition digit_of (c : ascii) : option Z :=
  let n := nat_of_ascii c in
  if (Nat.leb 48 n && Nat.leb n 57)%bool then Some (Z.of_nat n - 48) else None.

Fixpoint skip_spaces (l : list ascii) : list ascii :=
  match l with
  | c :: l' => if is_space c then skip_spaces l' else l
  | [] => []
  end.

(** Reads the longest run of decimal digits; [acc] is [None] until a
    digit has been read. *)
Fixpoint read_digits (l : list ascii) (acc : option Z) : option Z :=
  match l with
  | c :: l' =>
      match digit_of c with
      | Some d =>
          read_digits l' (Some (10 * match acc with Some a => a | None => 0 end + d))
      | None => acc
      end
  | [] => acc
  end.

Definition parseInt (s : string) : number :=
  let l := skip_spaces (list_ascii_of_string s) in
  let '(neg, digits) :=
    match l with
    | "-"%char :: l' => (true, l')
    | "+"%char :: l' => (false, l')
    | _ => (false, l)
    end in
  match read_digits digits None with
  | Some n => Num (if neg then - n else n)
  | None => NaN
  end.

End JS.

(* ================================================================== *)
(** ** JSON bodies                                                      *)
(* ================================================================== *)

Module Json.

Inductive t :=
| JNull
| JBool (b : bool)
| JNum (n : Z)
| JStr (s : string)
| JArr (items : list t)
| JObj (fields : list (string * t)).

(** [JSON.stringify] writes [NaN] and the infinities as [null]. *)
Definition of_number (n : JS.number) : t :=
  match n with
  | JS.Num z => JNum z
  | _ => JNull
  end.

Definition of_opt_string (o : option string) : t :=
  match o with
  | Some s => JStr s
  | None => JNull
  end.

Fixpoint assoc (k : string) (fields : list (string * t)) : option t :=
  match fields with
  | (k', v) :: rest => if (k' =? k)%string then Some v else assoc k rest
  | [] => None
  end.

(** Member access; [None] when the key is absent or the value is not an
    object. *)
Definition get (k : string) (j : t) : option t :=
  match j with
  | JObj fields => assoc k fields
  | _ => None
  end.

End Json.

Import Json.

(* ================================================================== *)
(** ** The Express response object                                     *)
(* ================================================================== *)

Module Express.

Inductive SameSite := SameSiteNone | SameSiteLax | SameSiteStrict.

(** The option bag handed to [res.cookie] / [res.clearCookie]; [None]
    is a key the caller did not pass. *)
Record CookieOptions := mkCookieOptions {
  httpOnly : option bool;
  secure : option bool;
  sameSite : option SameSite;
  path : option string;
  maxAge : option Z
}.

Definition no_options : CookieOptions :=
  mkCookieOptions None None None None None.

Inductive CookieOp :=
| SetCookie (name : string) (val : JS.value) (opts : CookieOptions)
| ClearCookie (name : string) (opts : CookieOptions).

Record Response := mkResponse {
  statusCode : Z;
  headers : list (string * string);
  cookieOps : list CookieOp;
  body : option Json.t
}.

(** A response nobody has touched yet: Express starts at 200. *)
Definition fresh : Response := mkResponse 200 [] [] None.

Definition status (code : Z) (res : Response) : Response :=
  mkResponse code (headers res) (cookieOps res) (body res).

Definition json (b : Json.t) (res : Response) : Response :=
  mkResponse (statusCode res) (headers res) (cookieOps res) (Some b).

Definition header (k v : string) (res : Response) : Response :=
  mkResponse (statusCode res) (headers res ++ [(k, v)]) (cookieOps res) (body res).

Definition cookie (name : string) (val : JS.value) (opts : CookieOptions)
    (res : Response) : Response :=
  mkResponse (statusCode res) (headers res)
             (cookieOps res ++ [SetCookie name val opts]) (body res).

Definition clearCookie (name : string) (opts : CookieOptions)
    (res : Response) : Response :=
  mkResponse (statusCode res) (headers res)
             (cookieOps res ++ [ClearCookie name opts]) (body res).

(** [req.cookies?.name] *)
Definition cookie_of (cookies : option (list (string * JS.value))) (name : string)
    : JS.value :=
  match cookies with
  | None => JS.VUndefined
  | Some jar =>
      match find (fun kv => (fst kv =? name)%string) jar with
      | Some kv => snd kv
      | None => JS.VUndefined
      end
  end.

(** What a middleware does with a request: answer it, hand it on
    (recording [req.isAuthenticated]), or let an exception escape. *)
Inductive Flow :=
| Responded (res : Response)
| Next (isAuthenticated : bool)
| Escaped.

End Express.

Import Express.

(** [process.env] *)
Record Env := mkEnv {
  NODE_ENV : option string;
  ACCESS_CODE_HASH : option string;
  FRONTEND_URL : option string;
  BACKEND_URL : option string;
  S3_BUCKET : option string
}.

(** What a call to [bcrypt.compare(data, hash, cb)] does: it throws (the
    string is the thrown error's message), or it calls back with
    [(err, isMatch)]. *)
Inductive CompareOutcome :=
| CompareThrows (message : string)
| CompareCallback (err : option string) (isMatch : bool).

(* ================================================================== *)
(** ** src/middleware/auth.ts                                          *)
(* ================================================================== *)

Module Auth.
Section WithBcrypt.

Variable bcrypt_compare : JS.value -> string -> CompareOutcome.

Definition requireAuth (env : Env) (cookies : option (list (string * JS.value)))
    (res : Response) : Flow :=
  let sessionToken := cookie_of cookies "auth_session" in
  if negb (JS.truthy sessionToken) then
    Responded (res |> status 401 |> json (JObj [
      ("success", JBool false);
      ("message", JStr "No autorizado. Por favor, inicia sesión.")]))
  else
    match JS.nonempty (ACCESS_CODE_HASH env) with
    | None =>
        Responded (res |> status 500 |> json (JObj [
          ("success", JBool false);
          ("message", JStr "Error de configuración del servidor")]))
    | Some accessCodeHash =>
        match bcrypt_compare sessionToken accessCodeHash with
        | CompareThrows _ => Escaped
        | CompareCallback (Some _) _ =>
            Responded (res |> status 500 |> json (JObj [
              ("success", JBool false);
              ("message", JStr "Error al verificar autenticación")]))
        | CompareCallback None false =>
            Responded (res |> status 401 |> json (JObj [
              ("success", JBool false);
              ("message", JStr "Sesión inválida. Por favor, inicia sesión nuevamente.")]))
        | CompareCallback None true => Next true
        end
    end.

End WithBcrypt.
End Auth.

(* ================================================================== *)
(** ** src/utils/cookieConfig.ts                                       *)
(* ================================================================== *)

Module CookieConfig.
Section WithUrl.

(** [new URL(url).hostname]; [None] when the constructor throws. *)
Variable url_hostname : string -> option string.

Definition getDomain (url : string) : string :=
  match url_hostname url with
  | Some hostname => hostname
  | None => url
  end.

Definition getCookieConfig (env : Env) : CookieOptions :=
  let isProduction :=
    match NODE_ENV env with
    | Some v => (v =? "production")%string
    | None => false
    end in
  let frontendUrl := JS.or_default (FRONTEND_URL env) "http://localhost:3000" in
  let backendUrl := JS.or_default (BACKEND_URL env) "http://localhost:3001" in
  let frontendDomain := getDomain frontendUrl in
  let backendDomain := getDomain backendUrl in
  let areDifferentDomains := negb (frontendDomain =? backendDomain)%string in
  let useCrossSite :=
    (isProduction &&
     (areDifferentDomains ||
      (negb (JS.includes frontendUrl "localhost") &&
       negb (JS.includes backendUrl "localhost"))))%bool in
  let sameSiteValue := if useCrossSite then SameSiteNone else SameSiteLax in
  let secureValue :=
    match sameSiteValue with
    | SameSiteNone => true
    | _ => isProduction
    end in
  {| httpOnly := Some true;
     secure := Some secureValue;
     sameSite := Some sameSiteValue;
     path := Some "/";
     maxAge := Some (24 * 60 * 60 * 1000) |}.

End WithUrl.
End CookieConfig.

(* ================================================================== *)
(** ** src/controllers/authController.ts                               *)
(* ================================================================== *)

(** The request as the authentication handlers read it. *)
Record AuthRequest := mkAuthRequest {
  cookies : option (list (string * JS.value));
  access_code : JS.value   (* req.body.access_code *)
}.

Module AuthController.
Section WithBcrypt.

Variable bcrypt_compare : JS.value -> string -> CompareOutcome.

Definition verifyAccessCode (env : Env) (req : AuthRequest) (res : Response)
    : Response :=
  let access_code := access_code req in
  if negb (JS.truthy access_code) then
    res |> status 400 |> json (JObj [
      ("success", JBool false);
      ("message", JStr "El código de acceso es requerido")])
  else
    match JS.nonempty (ACCESS_CODE_HASH env) with
    | None =>
        res |> status 500 |> json (JObj [
          ("success", JBool false);
          ("message", JStr "Error de configuración del servidor")])
    | Some accessCodeHash =>
        match bcrypt_compare access_code accessCodeHash with
        | CompareThrows message =>
            res |> status 500 |> json (JObj [
              ("success", JBool false);
              ("message", JStr "Error interno del servidor");
              ("error", JStr message)])
        | CompareCallback (Some _) _ =>
            res |> status 500 |> json (JObj [
              ("success", JBool false);
              ("message", JStr "Error al verificar código de acceso")])
        | CompareCallback None false =>
            res |> status 401 |> json (JObj [
              ("success", JBool false);
              ("message", JStr "Código de acceso incorrecto")])
        | CompareCallback None true =>
            let sessionToken := access_code in
            res
            |> cookie "auth_session" sessionToken
                 {| httpOnly := Some true;
                    secure := Some match NODE_ENV env with
                                   | Some v => (v =? "production")%string
                                   | None => false
                                   end;
                    sameSite := Some SameSiteStrict;
                    path := None;
                    maxAge := Some (24 * 60 * 60 * 1000) |}
            |> json (JObj [
                 ("success", JBool true);
                 ("message", JStr "Autenticación exitosa")])
        end
    end.

Definition logout (res : Response) : Response :=
  res
  |> clearCookie "auth_session" no_options
  |> json (JObj [
       ("success", JBool true);
       ("message", JStr "Sesión cerrada exitosamente")]).

Definition checkAuth (env : Env) (req : AuthRequest) (res : Response) : Response :=
  let sessionToken := cookie_of (cookies req) "auth_session" in
  match (if JS.truthy sessionToken then JS.nonempty (ACCESS_CODE_HASH env) else None) with
  | None =>
      res |> json (JObj [("success", JBool false); ("authenticated", JBool false)])
  | Some accessCodeHash =>
      match bcrypt_compare sessionToken accessCodeHash with
      | CompareThrows _ =>
          res |> json (JObj [("success", JBool false); ("authenticated", JBool false)])
      | CompareCallback err isMatch =>
          if (match err with Some _ => true | None => false end || negb isMatch)%bool
          then
            res |> json (JObj [("success", JBool false); ("authenticated", JBool false)])
          else
            res |> json (JObj [("success", JBool true); ("authenticated", JBool true)])
      end
  end.

End WithBcrypt.
End AuthController.

(** The copy of the controller in which both the login and the logout take
    their cookie attributes from [getCookieConfig]. *)
Module AuthControllerCfg.
Section WithLibraries.

Variable bcrypt_compare : JS.value -> string -> CompareOutcome.
Variable url_hostname : string -> option string.

Definition cors_headers (env : Env) (res : Response) : Response :=
  res
  |> header "Access-Control-Allow-Credentials" "true"
  |> header "Access-Control-Allow-Origin"
       (JS.or_default (FRONTEND_URL env) "http://localhost:3000").

Definition verifyAccessCode (env : Env) (req : AuthRequest) (res : Response)
    : Response :=
  let access_code := access_code req in
  if negb (JS.truthy access_code) then
    res |> status 400 |> json (JObj [
      ("success", JBool false);
      ("message", JStr "El código de acceso es requerido")])
  else
    match JS.nonempty (ACCESS_CODE_HASH env) with
    | None =>
        res |> status 500 |> json (JObj [
          ("success", JBool false);
          ("message", JStr "Error de configuración del servidor")])
    | Some accessCodeHash =>
        match bcrypt_compare access_code accessCodeHash with
        | CompareThrows message =>
            res |> status 500 |> json (JObj [
              ("success", JBool false);
              ("message", JStr "Error interno del servidor");
              ("error", JStr message)])
        | CompareCallback (Some _) _ =>
            res |> status 500 |> json (JObj [
              ("success", JBool false);
              ("message", JStr "Error al verificar código de acceso")])
        | CompareCallback None false =>
            res |> status 401 |> json (JObj [
              ("success", JBool false);
              ("message", JStr "Código de acceso incorrecto")])
        | CompareCallback None true =>
            let sessionToken := access_code in
            let cookieConfig := CookieConfig.getCookieConfig url_hostname env in
            res
            |> cookie "auth_session" sessionToken cookieConfig
            |> cors_headers env
            |> json (JObj [
                 ("success", JBool true);
                 ("message", JStr "Autenticación exitosa")])
        end
    end.

Definition logout (env : Env) (res : Response) : Response :=
  let cookieConfig := CookieConfig.getCookieConfig url_hostname env in
  res
  |> clearCookie "auth_session" cookieConfig
  |> json (JObj [
       ("success", JBool true);
       ("message", JStr "Sesión cerrada exitosamente")]).

Definition checkAuth (env : Env) (req : AuthRequest) (res : Response) : Response :=
  let res := cors_headers env res in
  let sessionToken := cookie_of (cookies req) "auth_session" in
  match (if JS.truthy sessionToken then JS.nonempty (ACCESS_CODE_HASH env) else None) with
  | None =>
      res |> json (JObj [("success", JBool false); ("authenticated", JBool false)])
  | Some accessCodeHash =>
      match bcrypt_compare sessionToken accessCodeHash with
      | CompareThrows _ =>
          res |> json (JObj [("success", JBool false); ("authenticated", JBool false)])
      | CompareCallback (Some _) _ =>
          res |> json (JObj [("success", JBool false); ("authenticated", JBool false)])
      | CompareCallback None false =>
          res |> json (JObj [("success", JBool false); ("authenticated", JBool false)])
      | CompareCallback None true =>
          res |> json (JObj [("success", JBool true); ("authenticated", JBool true)])
      end
  end.

End WithLibraries.
End AuthControllerCfg.

(* ================================================================== *)
(** ** Exceptions                                                      *)
(* ================================================================== *)

(** A computation that returns or throws an error with a [name] and a
    [message]. *)
Inductive Result (A : Type) :=
| Ok (a : A)
| Throw (name message : string).

Arguments Ok {A} a.
Arguments Throw {A} name message.

Definition bind {A B} (r : Result A) (k : A -> Result B) : Result B :=
  match r with
  | Ok a => k a
  | Throw n m => Throw n m
  end.

(** [try { body } catch (error) { handler }] *)
Definition try_catch {A} (body : Result A) (handler : string -> string -> A) : A :=
  match body with
  | Ok a => a
  | Throw n m => handler n m
  end.

Notation "'let!' x ':=' r 'in' k" := (bind r (fun x => k))
  (at level 10, x pattern, r at level 100, k at level 200, only parsing).

(* ================================================================== *)
(** ** src/models/Product.ts                                           *)
(* ================================================================== *)

Module ProductModel.

(** A row of the [products] table; [None] is SQL NULL. *)
Record Product := mkProduct {
  id : Z;
  ean : string;
  name : option string;
  original_name : option string;
  brand : option string;
  page : option string;
  url : option string;
  description : option string;
  category : option string;
  type : option string;
  variety : option string;
  image_filename : option string;
  available : option bool;
  comments : option string
}.

(** A field of a request body: left out, [null], or a value of the
    attribute's declared type. *)
Inductive Field (A : Type) :=
| Absent
| Null
| Given (a : A).

Arguments Absent {A}.
Arguments Null {A}.
Arguments Given {A} a.

(** [ProductCreationAttributes]: the fields of a create or update body. *)
Record ProductInput := mkProductInput {
  in_ean : Field string;
  in_name : Field string;
  in_original_name : Field string;
  in_brand : Field string;
  in_page : Field string;
  in_url : Field string;
  in_description : Field string;
  in_category : Field string;
  in_type : Field string;
  in_variety : Field string;
  in_image_filename : Field string;
  in_available : Field bool;
  in_comments : Field string
}.

(** The per-attribute options of [Product.init] that the handlers rely
    on. *)
Record Attribute (A : Type) := mkAttribute {
  attr_name : string;
  allowNull : bool;
  defaultValue : option A;
  unique : bool;
  notEmpty : bool
}.

Arguments attr_name {A}.
Arguments allowNull {A}.
Arguments defaultValue {A}.
Arguments unique {A}.
Arguments notEmpty {A}.

Definition nullable {A} (n : string) : Attribute A :=
  mkAttribute A n true None false false.

Definition attr_ean : Attribute string :=
  {| attr_name := "ean"; allowNull := false; defaultValue := None;
     unique := true; notEmpty := true |}.
Definition attr_name_ : Attribute string := nullable "name".
Definition attr_original_name : Attribute string := nullable "original_name".
Definition attr_brand : Attribute string := nullable "brand".
Definition attr_page : Attribute string := nullable "page".
Definition attr_url : Attribute string := nullable "url".
Definition attr_description : Attribute string := nullable "description".
Definition attr_category : Attribute string := nullable "category".
Definition attr_type : Attribute string := nullable "type".
Definition attr_variety : Attribute string := nullable "variety".
Definition attr_image_filename : Attribute string := nullable "image_filename".
Definition attr_available : Attribute bool :=
  {| attr_name := "available"; allowNull := false; defaultValue := Some true;
     unique := false; notEmpty := false |}.
Definition attr_comments : Attribute string := nullable "comments".

(** The table: its rows and the auto-increment counter of [id]. *)
Record Table := mkTable {
  rows : list Product;
  nextId : Z
}.

(** *** Building and validating an instance *)

(** The value a new instance takes for an attribute. *)
Definition build {A} (a : Attribute A) (f : Field A) : option A :=
  match f with
  | Absent => defaultValue a
  | Null => None
  | Given v => Some v
  end.

(** The value an existing instance takes after [set]. *)
Definition merge {A} (old : option A) (f : Field A) : option A :=
  match f with
  | Absent => old
  | Null => None
  | Given v => Some v
  end.

(** The [allowNull: false] check of [validate]. *)
Definition check_null {A} (a : Attribute A) (v : option A) : Result unit :=
  match v with
  | None =>
      if allowNull a then Ok tt
      else Throw "SequelizeValidationError"
                 ("notNull Violation: Product." ++ attr_name a ++ " cannot be null")
  | Some _ => Ok tt
  end.

(** The [notEmpty] check of [validate]. *)
Definition check_empty (a : Attribute string) (v : option string) : Result unit :=
  match v with
  | Some s =>
      if (notEmpty a && (s =? "")%string)%bool
      then Throw "SequelizeValidationError"
                 ("Validation error: Validation notEmpty on " ++ attr_name a ++ " failed")
      else Ok tt
  | None => Ok tt
  end.

Definition given {A} (f : Field A) : bool :=
  match f with
  | Absent => false
  | _ => true
  end.

(** A check that runs only for an attribute that is being saved. *)
Definition when (saved : bool) (check : Result unit) : Result unit :=
  if saved then check else Ok tt.

(** The [unique: true] index on [ean]: no other row may hold it. *)
Definition ean_taken (self : Z) (e : string) (t : Table) : bool :=
  existsb (fun r => (negb (id r =? self) && (ean r =? e)%string)%bool) (rows t).

Definition check_unique (p : Product) (t : Table) : Result unit :=
  if (unique attr_ean && ean_taken (id p) (ean p) t)%bool
  then Throw "SequelizeUniqueConstraintError" "Validation error"
  else Ok tt.

(** *** Static and instance methods *)

(** [Product.findByPk(id)] *)
Definition findByPk (i : Z) (t : Table) : option Product :=
  find (fun r => id r =? i) (rows t).

(** [Product.create(values)]: defaults, then the validation of every
    attribute, then the insert. *)
Definition create (v : ProductInput) (t : Table) : Result (Product * Table) :=
  let ean := build attr_ean (in_ean v) in
  let available := build attr_available (in_available v) in
  let! _ := check_null attr_ean ean in
  let! _ := check_empty attr_ean ean in
  let! _ := check_null attr_available available in
  match ean with
  | None => Throw "SequelizeValidationError" "notNull Violation: Product.ean cannot be null"
  | Some ean =>
      let p :=
        {| id := nextId t;
           ean := ean;
           name := build attr_name_ (in_name v);
           original_name := build attr_original_name (in_original_name v);
           brand := build attr_brand (in_brand v);
           page := build attr_page (in_page v);
           url := build attr_url (in_url v);
           description := build attr_description (in_description v);
           category := build attr_category (in_category v);
           type := build attr_type (in_type v);
           variety := build attr_variety (in_variety v);
           image_filename := build attr_image_filename (in_image_filename v);
           available := available;
           comments := build attr_comments (in_comments v) |} in
      let! _ := check_unique p t in
      Ok (p, {| rows := rows t ++ [p]; nextId := nextId t + 1 |})
  end.

(** [product.update(values)]: the merge, then the validation of the
    attributes that [values] gives, then the write of the row of that
    primary key.  The unique index is consulted only when the update
    changes [ean]. *)
Definition update (p : Product) (v : ProductInput) (t : Table)
    : Result (Product * Table) :=
  let ean' := merge (Some (ean p)) (in_ean v) in
  let available' := merge (available p) (in_available v) in
  let! _ := when (given (in_ean v)) (check_null attr_ean ean') in
  let! _ := when (given (in_ean v)) (check_empty attr_ean ean') in
  let! _ := when (given (in_available v)) (check_null attr_available available') in
  match ean' with
  | None => Throw "SequelizeValidationError" "notNull Violation: Product.ean cannot be null"
  | Some ean' =>
      let p' :=
        {| id := id p;
           ean := ean';
           name := merge (name p) (in_name v);
           original_name := merge (original_name p) (in_original_name v);
           brand := merge (brand p) (in_brand v);
           page := merge (page p) (in_page v);
           url := merge (url p) (in_url v);
           description := merge (description p) (in_description v);
           category := merge (category p) (in_category v);
           type := merge (type p) (in_type v);
           variety := merge (variety p) (in_variety v);
           image_filename := merge (image_filename p) (in_image_filename v);
           available := available';
           comments := merge (comments p) (in_comments v) |} in
      let! _ := if (ean' =? ean p)%string then Ok tt else check_unique p' t in
      Ok (p', {| rows := map (fun r => if id r =? id p then p' else r) (rows t);
                 nextId := nextId t |})
  end.

(** A row with another value in one column. *)
Definition with_available (a : option bool) (p : Product) : Product :=
  mkProduct (id p) (ean p) (name p) (original_name p) (brand p) (page p) (url p)
            (description p) (category p) (type p) (variety p) (image_filename p)
            a (comments p).

Definition with_comments (c : option string) (p : Product) : Product :=
  mkProduct (id p) (ean p) (name p) (original_name p) (brand p) (page p) (url p)
            (description p) (category p) (type p) (variety p) (image_filename p)
            (available p) c.

(** [product.destroy()] *)
Definition destroy (p : Product) (t : Table) : Table :=
  {| rows := filter (fun r => negb (id r =? id p)) (rows t); nextId := nextId t |}.

(** [product.toJSON()] *)
Definition toJSON (p : Product) : list (string * Json.t) :=
  [ ("id", JNum (id p));
    ("ean", JStr (ean p));
    ("name", of_opt_string (name p));
    ("original_name", of_opt_string (original_name p));
    ("brand", of_opt_string (brand p));
    ("page", of_opt_string (page p));
    ("url", of_opt_string (url p));
    ("description", of_opt_string (description p));
    ("category", of_opt_string (category p));
    ("type", of_opt_string (type p));
    ("variety", of_opt_string (variety p));
    ("image_filename", of_opt_string (image_filename p));
    ("available", match available p with Some b => JBool b | None => JNull end);
    ("comments", of_opt_string (comments p)) ].

End ProductModel.

Import ProductModel.

(* ================================================================== *)
(** ** The queries the controller sends to the store                   *)
(* ================================================================== *)

Module Sql.

(** *** [ILIKE] *)

Definition lower (c : ascii) : ascii :=
  let n := nat_of_ascii c in
  if (Nat.leb 65 n && Nat.leb n 90)%bool then ascii_of_nat (n + 32) else c.

Definition same_letter (c d : ascii) : bool := (lower c =? lower d)%char.

Definition is_percent (c : ascii) : bool := (c =? "%")%char.
Definition is_underscore (c : ascii) : bool := (c =? "_")%char.
Definition is_backslash (c : ascii) : bool := (c =? "\")%char.

(** The first character of [s] is the letter [c] and the rest of [s]
    satisfies [rest]. *)
Definition literal (c : ascii) (rest : list ascii -> bool) (s : list ascii) : bool :=
  match s with
  | [] => false
  | d :: s' => (same_letter c d && rest s')%bool
  end.

(** Some suffix of [s] satisfies [rest]. *)
Fixpoint any_suffix (rest : list ascii -> bool) (s : list ascii) : bool :=
  (rest s || match s with [] => false | _ :: s' => any_suffix rest s' end)%bool.

(** [s ILIKE p] on characters: [%] stands for any run of characters,
    [_] for any one character, a backslash takes the next pattern
    character literally, and letters compare without case. *)
Fixpoint like (p s : list ascii) {struct p} : bool :=
  match p with
  | [] => match s with [] => true | _ :: _ => false end
  | c :: p' =>
      if is_percent c then any_suffix (like p') s
      else if is_underscore c then
        match s with [] => false | _ :: s' => like p' s' end
      else if is_backslash c then
        match p' with
        | c' :: p'' => literal c' (like p'') s
        | [] => literal c (like p') s
        end
      else literal c (like p') s
  end.

(** A comparison with NULL is never true. *)
Definition iLike (pattern : string) (v : option string) : bool :=
  match v with
  | Some s => like (list_ascii_of_string pattern) (list_ascii_of_string s)
  | None => false
  end.

Definition eq_string (x : string) (v : option string) : bool :=
  match v with
  | Some s => (s =? x)%string
  | None => false
  end.

Definition eq_bool (x : bool) (v : option bool) : bool :=
  match v with
  | Some b => Bool.eqb b x
  | None => false
  end.

(** *** The [where] object *)

Inductive Column := ColName | ColOriginalName | ColBrand | ColEan.

Definition column (c : Column) (p : Product) : option string :=
  match c with
  | ColName => name p
  | ColOriginalName => original_name p
  | ColBrand => brand p
  | ColEan => Some (ean p)
  end.

(** The keys the list handler may set; [None] is a key left out.
    [w_or] is the [Op.or] list of [{column: {[Op.iLike]: pattern}}]. *)
Record WhereClause := mkWhere {
  w_brand : option string;
  w_category : option string;
  w_available : option bool;
  w_or : option (list (Column * string))
}.

Definition empty_where : WhereClause := mkWhere None None None None.

Definition set_brand (v : string) (w : WhereClause) : WhereClause :=
  mkWhere (Some v) (w_category w) (w_available w) (w_or w).
Definition set_category (v : string) (w : WhereClause) : WhereClause :=
  mkWhere (w_brand w) (Some v) (w_available w) (w_or w).
Definition set_available (v : bool) (w : WhereClause) : WhereClause :=
  mkWhere (w_brand w) (w_category w) (Some v) (w_or w).
Definition set_or (v : list (Column * string)) (w : WhereClause) : WhereClause :=
  mkWhere (w_brand w) (w_category w) (w_available w) (Some v).

Definition on_key {A} (k : option A) (test : A -> bool) : bool :=
  match k with
  | Some a => test a
  | None => true
  end.

(** The keys of a [where] object are joined by AND. *)
Definition satisfies (w : WhereClause) (p : Product) : bool :=
  (on_key (w_brand w) (fun v => eq_string v (brand p)) &&
   on_key (w_category w) (fun v => eq_string v (category p)) &&
   on_key (w_available w) (fun v => eq_bool v (available p)) &&
   on_key (w_or w) (existsb (fun cp => iLike (snd cp) (column (fst cp) p))))%bool.

(** *** [ORDER BY] *)

(** Ascending order of a nullable text column, NULLs last. *)
Definition col_compare (a b : option string) : comparison :=
  match a, b with
  | Some x, Some y => String.compare x y
  | Some _, None => Lt
  | None, Some _ => Gt
  | None, None => Eq
  end.

(** [order: [['brand', 'ASC'], ['name', 'ASC']]] *)
Definition by_brand_name (p q : Product) : bool :=
  match col_compare (brand p) (brand q) with
  | Lt => true
  | Gt => false
  | Eq => match col_compare (name p) (name q) with Gt => false | _ => true end
  end.

Section Ordering.
Context {A : Type} (leb : A -> A -> bool).

Fixpoint insert (x : A) (l : list A) : list A :=
  match l with
  | [] => [x]
  | y :: l' => if leb x y then x :: l else y :: insert x l'
  end.

Fixpoint order_by (l : list A) : list A :=
  match l with
  | [] => []
  | x :: l' => insert x (order_by l')
  end.
End Ordering.

(** *** [findAll] and [count] *)

Record QueryOptions := mkQueryOptions {
  where_ : WhereClause;
  limit : option JS.number;
  offset : option JS.number
}.

(** [LIMIT l OFFSET o]: the store rejects a bound that is not a
    non-negative integer. *)
Definition window {A} (l o : option JS.number) (xs : list A) : Result (list A) :=
  match l, o with
  | None, None => Ok xs
  | Some (JS.Num l), Some (JS.Num o) =>
      if (0 <=? l) && (0 <=? o)
      then Ok (firstn (Z.to_nat l) (skipn (Z.to_nat o) xs))
      else Throw "SequelizeDatabaseError" "LIMIT and OFFSET must not be negative"
  | _, _ => Throw "SequelizeDatabaseError" "invalid LIMIT or OFFSET"
  end.

(** [Product.findAll({where, order: [['brand','ASC'],['name','ASC']], limit, offset})] *)
Definition findAll (q : QueryOptions) (t : Table) : Result (list Product) :=
  window (limit q) (offset q)
         (order_by by_brand_name (filter (satisfies (where_ q)) (rows t))).

(** [Product.count({where})] *)
Definition count (w : WhereClause) (t : Table) : Z :=
  Z.of_nat (List.length (filter (satisfies w) (rows t))).

Definition opt_string_eqb (a b : option string) : bool :=
  match a, b with
  | Some x, Some y => (x =? y)%string
  | None, None => true
  | _, _ => false
  end.

Fixpoint distinct (l : list (option string)) : list (option string) :=
  match l with
  | [] => []
  | x :: l' => x :: filter (fun y => negb (opt_string_eqb x y)) (distinct l')
  end.

Definition col_leb (a b : option string) : bool :=
  match col_compare a b with Gt => false | _ => true end.

(** [Product.findAll({attributes: [c], group: [c], order: [[c, 'ASC']]})],
    read through [.map(product => product.c)]. *)
Definition findAll_grouped (c : Product -> option string) (t : Table)
    : list (option string) :=
  order_by col_leb (distinct (map c (rows t))).

End Sql.

(* ================================================================== *)
(** ** src/services/s3Service.ts                                       *)
(* ================================================================== *)

Module S3Service.

(** The [GetObjectCommand] handed to the presigner, with its expiry. *)
Record SignRequest := mkSignRequest {
  Bucket : string;
  Key : string;
  expiresIn : Z
}.

Section WithSigner.

(** [getSignedUrl(s3Client, command, { expiresIn })]: a URL, or a thrown
    error. *)
Variable getSignedUrl : SignRequest -> Result string.

Definition BUCKET_NAME (env : Env) : string := JS.or_default (S3_BUCKET env) "".

(** The result of the call, and the requests it sent to the presigner. *)
Definition getPresignedImageUrl (env : Env) (imageFilename : option string)
    (expiresIn : Z) : Result (option string) * list SignRequest :=
  match JS.nonempty imageFilename, JS.str_truthy (BUCKET_NAME env) with
  | Some imageFilename, true =>
      let key := imageFilename in
      let command := {| Bucket := BUCKET_NAME env; Key := key; expiresIn := expiresIn |} in
      (Ok (try_catch
             (let! presignedUrl := getSignedUrl command in Ok (Some presignedUrl))
             (fun _ _ => None)),
       [command])
  | _, _ => (Ok None, [])
  end.




End WithSigner.
End S3Service.

(* ================================================================== *)
(** ** src/controllers/productController.ts                            *)
(* ================================================================== *)

(** [req.query] of the list route. *)
Record ListQuery := mkListQuery {
  q_brand : option string;
  q_category : option string;
  q_search : option string;
  q_available : option string;
  q_page : option string;
  q_limit : option string
}.

Module ProductController.
Section WithSigner.

Variable getSignedUrl : S3Service.SignRequest -> Result string.
Variable env : Env.

Fixpoint mapM {A B} (f : A -> Result B) (l : list A) : Result (list B) :=
  match l with
  | [] => Ok []
  | x :: l' =>
      let! y := f x in
      let! ys := mapM f l' in
      Ok (y :: ys)
  end.

(** [toJSON], then [image_url] from the presigner (the product's own
    image, or [placeholder.webp]). *)
Definition withImageUrl (product : Product) : Result Json.t :=
  let productData := toJSON product in
  let imageToUse := JS.or_default (image_filename product) "placeholder.webp" in
  let! image_url := fst (S3Service.getPresignedImageUrl getSignedUrl env (Some imageToUse) 3600) in
  Ok (JObj (productData ++ [("image_url", of_opt_string image_url)])).

Definition whereClause_of (q : ListQuery) : Sql.WhereClause :=
  let whereClause := Sql.empty_where in
  let whereClause :=
    match q_brand q with
    | Some brand =>
        if (JS.str_truthy brand && negb (brand =? "all")%string)%bool
        then Sql.set_brand brand whereClause else whereClause
    | None => whereClause
    end in
  let whereClause :=
    match q_category q with
    | Some category =>
        if (JS.str_truthy category && negb (category =? "all")%string)%bool
        then Sql.set_category category whereClause else whereClause
    | None => whereClause
    end in
  let whereClause :=
    match q_available q with
    | Some available =>
        if negb (available =? "all")%string
        then Sql.set_available (available =? "true")%string whereClause
        else whereClause
    | None => whereClause
    end in
  match q_search q with
  | Some search =>
      if JS.str_truthy search
      then Sql.set_or [ (Sql.ColName, "%" ++ search ++ "%");
                        (Sql.ColOriginalName, "%" ++ search ++ "%");
                        (Sql.ColBrand, "%" ++ search ++ "%");
                        (Sql.ColEan, "%" ++ search ++ "%") ] whereClause
      else whereClause
  | None => whereClause
  end.

(** [x ? parseInt(x, 10) : undefined] *)
Definition number_of (x : option string) : option JS.number :=
  match JS.nonempty x with
  | Some s => Some (JS.parseInt s)
  | None => None
  end.

Definition getAllProducts (q : ListQuery) (t : Table) (res : Response) : Response :=
  try_catch
    (let whereClause := whereClause_of q in
     let pageNumber := number_of (q_page q) in
     let limitNumber := number_of (q_limit q) in
     let queryOptions :=
       match pageNumber, limitNumber with
       | Some pageNumber, Some limitNumber =>
           let offset := JS.mul (JS.sub pageNumber (JS.Num 1)) limitNumber in
           {| Sql.where_ := whereClause;
              Sql.limit := Some limitNumber;
              Sql.offset := Some offset |}
       | _, _ =>
           {| Sql.where_ := whereClause; Sql.limit := None; Sql.offset := None |}
       end in
     let totalCount := Sql.count whereClause t in
     let! products := Sql.findAll queryOptions t in
     let! productsWithUrls := mapM withImageUrl products in
     match pageNumber, limitNumber with
     | Some pageNumber, Some limitNumber =>
         let totalPages := JS.ceil_div (JS.Num totalCount) limitNumber in
         Ok (res |> json (JObj [
           ("success", JBool true);
           ("data", JArr productsWithUrls);
           ("count", JNum (Z.of_nat (List.length productsWithUrls)));
           ("pagination", JObj [
              ("page", of_number pageNumber);
              ("limit", of_number limitNumber);
              ("total", JNum totalCount);
              ("totalPages", of_number totalPages)])]))
     | _, _ =>
         Ok (res |> json (JObj [
           ("success", JBool true);
           ("data", JArr productsWithUrls);
           ("count", JNum (Z.of_nat (List.length productsWithUrls)))]))
     end)
    (fun _ message =>
       res |> status 500 |> json (JObj [
         ("success", JBool false);
         ("message", JStr "Error al obtener productos");
         ("error", JStr message)])).

Definition not_found (res : Response) : Response :=
  res |> status 404 |> json (JObj [
    ("success", JBool false);
    ("message", JStr "Producto no encontrado")]).

Definition getProductById (i : Z) (t : Table) (res : Response) : Response :=
  try_catch
    (match findByPk i t with
     | None => Ok (not_found res)
     | Some product =>
         let! productData := withImageUrl product in
         Ok (res |> json (JObj [("success", JBool true); ("data", productData)]))
     end)
    (fun _ message =>
       res |> status 500 |> json (JObj [
         ("success", JBool false);
         ("message", JStr "Error al obtener producto");
         ("error", JStr message)])).

Definition field_truthy (f : Field string) : bool :=
  match f with
  | Given s => JS.str_truthy s
  | _ => false
  end.

Definition createProduct (productData : ProductInput) (t : Table) (res : Response)
    : Response * Table :=
  try_catch
    (if (negb (field_truthy (in_ean productData)) ||
         negb (field_truthy (in_name productData)) ||
         negb (field_truthy (in_brand productData)))%bool
     then
       Ok (res |> status 400 |> json (JObj [
             ("success", JBool false);
             ("message", JStr "EAN, nombre y marca son campos requeridos")]), t)
     else
       let! (product, t') := create productData t in
       let! productDataWithUrl := withImageUrl product in
       Ok (res |> status 201 |> json (JObj [
             ("success", JBool true);
             ("message", JStr "Producto creado exitosamente");
             ("data", productDataWithUrl)]), t'))
    (fun name message =>
       if (name =? "SequelizeUniqueConstraintError")%string
       then
         (res |> status 400 |> json (JObj [
            ("success", JBool false);
            ("message", JStr "Ya existe un producto con ese EAN")]), t)
       else
         (res |> status 500 |> json (JObj [
            ("success", JBool false);
            ("message", JStr "Error al crear producto");
            ("error", JStr message)]), t)).

Definition updateProduct (i : Z) (productData : ProductInput) (t : Table)
    (res : Response) : Response * Table :=
  try_catch
    (match findByPk i t with
     | None => Ok (not_found res, t)
     | Some product =>
         let! (product, t') := update product productData t in
         let! productDataWithUrl := withImageUrl product in
         Ok (res |> json (JObj [
               ("success", JBool true);
               ("message", JStr "Producto actualizado exitosamente");
               ("data", productDataWithUrl)]), t')
     end)
    (fun name message =>
       if (name =? "SequelizeUniqueConstraintError")%string
       then
         (res |> status 400 |> json (JObj [
            ("success", JBool false);
            ("message", JStr "Ya existe un producto con ese EAN")]), t)
       else
         (res |> status 500 |> json (JObj [
            ("success", JBool false);
            ("message", JStr "Error al actualizar producto");
            ("error", JStr message)]), t)).

Definition deleteProduct (i : Z) (t : Table) (res : Response) : Response * Table :=
  match findByPk i t with
  | None => (not_found res, t)
  | Some product =>
      (res |> json (JObj [
         ("success", JBool true);
         ("message", JStr "Producto eliminado exitosamente")]),
       destroy product t)
  end.

Definition getBrands (t : Table) (res : Response) : Response :=
  let brands := Sql.findAll_grouped brand t in
  let brandList := map of_opt_string brands in
  res |> json (JObj [("success", JBool true); ("data", JArr brandList)]).

Definition getCategories (t : Table) (res : Response) : Response :=
  let categories := Sql.findAll_grouped category t in
  let categoryList := map of_opt_string (filter JS.opt_truthy categories) in
  res |> json (JObj [("success", JBool true); ("data", JArr categoryList)]).

(** [!product.available] *)
Definition not_available (product : Product) : bool :=
  match available product with
  | Some b => negb b
  | None => true
  end.

Definition toggleAvailability (i : Z) (t : Table) (res : Response)
    : Response * Table :=
  try_catch
    (match findByPk i t with
     | None => Ok (not_found res, t)
     | Some product =>
         let newAvailability := not_available product in
         let values :=
           mkProductInput Absent Absent Absent Absent Absent Absent Absent Absent
                          Absent Absent Absent (Given newAvailability) Absent in
         let! (product, t') := update product values t in
         let! productData := withImageUrl product in
         Ok (res |> json (JObj [
               ("success", JBool true);
               ("message", JStr ("Producto " ++
                  (if newAvailability then "disponible" else "no disponible")));
               ("data", productData)]), t')
     end)
    (fun _ message =>
       (res |> status 500 |> json (JObj [
          ("success", JBool false);
          ("message", JStr "Error al cambiar disponibilidad");
          ("error", JStr message)]), t)).

(** [comments || null] *)
Definition or_null (comments : Field string) : Field string :=
  if field_truthy comments then comments else Null.

Definition updateComments (i : Z) (comments : Field string) (t : Table)
    (res : Response) : Response * Table :=
  try_catch
    (match findByPk i t with
     | None => Ok (not_found res, t)
     | Some product =>
         let values :=
           mkProductInput Absent Absent Absent Absent Absent Absent Absent Absent
                          Absent Absent Absent Absent (or_null comments) in
         let! (product, t') := update product values t in
         let! productData := withImageUrl product in
         Ok (res |> json (JObj [
               ("success", JBool true);
               ("message", JStr "Comentarios actualizados exitosamente");
               ("data", productData)]), t')
     end)
    (fun _ message =>
       (res |> status 500 |> json (JObj [
          ("success", JBool false);
          ("message", JStr "Error al actualizar comentarios");
          ("error", JStr message)]), t)).

End WithSigner.
End ProductController.

(* ================================================================== *)
(** ** Reading a response                                              *)
(* ================================================================== *)

Module Observe.

(** The status a middleware answered with; [None] when it did not
    answer. *)
Definition status_of (f : Flow) : option Z :=
  match f with
  | Responded r => Some (statusCode r)
  | _ => None
  end.

Definition field (k : string) (r : Response) : option Json.t :=
  match body r with
  | Some b => Json.get k b
  | None => None
  end.

(** The keys of the envelope, in the order they were written. *)
Definition keys (r : Response) : list string :=
  match body r with
  | Some (JObj fields) => map fst fields
  | _ => []
  end.

Definition data_items (r : Response) : option (list Json.t) :=
  match field "data" r with
  | Some (JArr items) => Some items
  | _ => None
  end.


(** The JSON a handler sends for a product: its columns, then
    [image_url] as the issuer returned it for the product's image or for
    [placeholder.webp]. *)
Definition image_url_of (getSignedUrl : S3Service.SignRequest -> Result string)
    (env : Env) (p : Product) : option string :=
  match fst (S3Service.getPresignedImageUrl getSignedUrl env
               (Some (JS.or_default (image_filename p) "placeholder.webp")) 3600) with
  | Ok image_url => image_url
  | Throw _ _ => None
  end.

Definition rendered (getSignedUrl : S3Service.SignRequest -> Result string)
    (env : Env) (p : Product) : Json.t :=
  JObj (toJSON p ++ [("image_url", of_opt_string (image_url_of getSignedUrl env p))]).


(** The options of the one cookie operation of a response. *)
Definition set_cookie_options (r : Response) : option CookieOptions :=
  match cookieOps r with
  | [SetCookie _ _ o] => Some o
  | _ => None
  end.

Definition clear_cookie_options (r : Response) : option CookieOptions :=
  match cookieOps r with
  | [ClearCookie _ o] => Some o
  | _ => None
  end.

End Observe.

(* ================================================================== *)
(** ** The specification's wording                                     *)
(* ================================================================== *)

(** The access gate as the specification words it: a function of three
    facts about the request. *)
Module GateSpec.

(** The comparison called back without an error and with a match. *)
Definition verifies (o : CompareOutcome) : bool :=
  match o with
  | CompareCallback None true => true
  | _ => false
  end.

(** The status the four-branch function answers with; [None] when the
    request proceeds to the handler. *)
Definition four_branch (cookie_present hash_configured verified : bool) : option Z :=
  if negb cookie_present then Some 401
  else if negb hash_configured then Some 500
  else if negb verified then Some 401
  else None.

(** The three facts, for a request under an environment. *)
Definition expected (bcrypt_compare : JS.value -> string -> CompareOutcome)
    (env : Env) (cookies : option (list (string * JS.value))) : option Z :=
  let sessionToken := cookie_of cookies "auth_session" in
  four_branch
    (JS.truthy sessionToken)
    (JS.opt_truthy (ACCESS_CODE_HASH env))
    (match ACCESS_CODE_HASH env with
     | Some h => verifies (bcrypt_compare sessionToken h)
     | None => false
     end).

(** A session cookie is present and verifies against the configured
    hash. *)
Definition session_verifies (bcrypt_compare : JS.value -> string -> CompareOutcome)
    (env : Env) (cookies : option (list (string * JS.value))) : bool :=
  let sessionToken := cookie_of cookies "auth_session" in
  (JS.truthy sessionToken &&
   match JS.nonempty (ACCESS_CODE_HASH env) with
   | Some h => verifies (bcrypt_compare sessionToken h)
   | None => false
   end)%bool.

End GateSpec.

(** The list filter as the specification words it. *)
Module ListSpec.











(** *** As amended *)






End ListSpec.

(** The table invariant of the [available] column. *)
Definition available_not_null (t : Table) : Prop :=
  Forall (fun p => available p <> None) (rows t).

(* ================================================================== *)
(** ** Concrete collaborators and data                                 *)
(* ================================================================== *)

Module Sample.

(** A [bcrypt.compare] for the access code ["lacosta"]: a value that is
    not a string is reported through the callback's error. *)
Definition compare (data : JS.value) (hash : string) : CompareOutcome :=
  match data with
  | JS.VStr s => CompareCallback None (s =? "lacosta")%string
  | _ => CompareCallback (Some "data must be a string or Buffer and hash must be a string") false
  end.

(** Hostnames of the two URLs the samples use. *)
Definition hostname (url : string) : option string :=
  if (url =? "https://lacosta-front.onrender.com")%string
  then Some "lacosta-front.onrender.com"
  else if (url =? "https://lacosta-back.onrender.com")%string
  then Some "lacosta-back.onrender.com"
  else if JS.includes url "localhost" then Some "localhost"
  else None.

Definition env : Env :=
  {| NODE_ENV := Some "production";
     ACCESS_CODE_HASH := Some "$2b$10$abcdefghijklmnopqrstuv";
     FRONTEND_URL := Some "https://lacosta-front.onrender.com";
     BACKEND_URL := Some "https://lacosta-back.onrender.com";
     S3_BUCKET := Some "lacosta-images" |}.

Definition env_no_hash : Env :=
  {| NODE_ENV := Some "production";
     ACCESS_CODE_HASH := None;
     FRONTEND_URL := Some "https://lacosta-front.onrender.com";
     BACKEND_URL := Some "https://lacosta-back.onrender.com";
     S3_BUCKET := Some "lacosta-images" |}.

(** A presigner that knows one object and fails for every other key. *)
Definition sign (r : S3Service.SignRequest) : Result string :=
  if (S3Service.Key r =? "placeholder.webp")%string
  then Ok ("https://" ++ S3Service.Bucket r ++ ".s3.amazonaws.com/placeholder.webp?X-Amz-Expires=3600")
  else Throw "NetworkingError" "connect ECONNREFUSED".

Definition product (i : Z) (e : string) (b n : string) (a : bool) : Product :=
  {| id := i; ean := e; name := Some n; original_name := None; brand := Some b;
     page := None; url := None; description := None; category := None;
     type := None; variety := None; image_filename := None;
     available := Some a; comments := None |}.

Definition soap : Product := product 1 "7790001" "Acme" "Soap" true.
Definition brush : Product := product 2 "7790002" "Zeta" "Brush" false.
Definition comb : Product := product 3 "7790003" "Acme" "Comb" true.

Definition table : Table := {| rows := [soap; brush; comb]; nextId := 4 |}.


End Sample.

(* ================================================================== *)
(** ** src/index.ts                                                    *)
(* ================================================================== *)

Module Index.

Definition allowedOrigins (env : Env) : list string :=
  [ JS.or_default (FRONTEND_URL env) "http://localhost:3000";
    "https://lacosta-front.onrender.com";
    "http://localhost:3000" ].

(** [corsOptions.origin]: the [(err, allow)] it calls back with, and the
    lines it writes with [console.warn]. *)
Definition corsOrigin (env : Env) (origin : option string)
    : (option string * bool) * list string :=
  match JS.nonempty origin with
  | None => ((None, true), [])
  | Some origin =>
      if existsb (fun allowed => (allowed =? origin)%string) (allowedOrigins env)
      then ((None, true), [])
      else ((None, true), ["⚠️ Origin no permitido: " ++ origin])
  end.

(** [app.use('*', ...)] *)
Definition notFound (res : Response) : Response :=
  res |> status 404 |> json (JObj [
    ("success", JBool false);
    ("message", JStr "Ruta no encontrada")]).

(** The error-handling middleware, for an error with the given message; a
    key whose value is [undefined] is not written. *)
Definition errorHandler (env : Env) (message : string) (res : Response) : Response :=
  res |> status 500 |> json (JObj (
    [ ("success", JBool false);
      ("message", JStr "Error interno del servidor") ] ++
    match NODE_ENV env with
    | Some v => if (v =? "development")%string then [("error", JStr message)] else []
    | None => []
    end)).

(** A request under [/api] that the authentication router did not answer,
    as the product router matches it; [:id] is the integer it denotes. *)
Inductive ProductRoute :=
| GetProducts (q : ListQuery)
| GetProduct (i : Z)
| PostProduct (body : ProductInput)
| PutProduct (i : Z) (body : ProductInput)
| DeleteProduct (i : Z)
| PatchAvailability (i : Z)
| PatchComments (i : Z) (comments : Field string)
| GetBrands
| GetCategories
| NoRoute.

Section WithLibraries.

Variable bcrypt_compare : JS.value -> string -> CompareOutcome.
Variable getSignedUrl : S3Service.SignRequest -> Result string.
Variable env : Env.

(** src/routes/productRoutes.ts; [None] when no route matches. *)
Definition productRoutes (route : ProductRoute) (t : Table) (res : Response)
    : option (Response * Table) :=
  match route with
  | GetProducts q => Some (ProductController.getAllProducts getSignedUrl env q t res, t)
  | GetProduct i => Some (ProductController.getProductById getSignedUrl env i t res, t)
  | PostProduct body => Some (ProductController.createProduct getSignedUrl env body t res)
  | PutProduct i body => Some (ProductController.updateProduct getSignedUrl env i body t res)
  | DeleteProduct i => Some (ProductController.deleteProduct i t res)
  | PatchAvailability i => Some (ProductController.toggleAvailability getSignedUrl env i t res)
  | PatchComments i comments =>
      Some (ProductController.updateComments getSignedUrl env i comments t res)
  | GetBrands => Some (ProductController.getBrands t res, t)
  | GetCategories => Some (ProductController.getCategories t res, t)
  | NoRoute => None
  end.

(** The message of the error that escapes [requireAuth]. *)
Definition escaped_message (cookies : option (list (string * JS.value))) : string :=
  match JS.nonempty (ACCESS_CODE_HASH env) with
  | Some accessCodeHash =>
      match bcrypt_compare (cookie_of cookies "auth_session") accessCodeHash with
      | CompareThrows message => message
      | CompareCallback _ _ => ""
      end
  | None => ""
  end.

(** [app.use('/api', requireAuth, productRoutes)], followed by the
    not-found and the error handlers. *)
Definition protectedApi (cookies : option (list (string * JS.value)))
    (route : ProductRoute) (t : Table) : Response * Table :=
  match Auth.requireAuth bcrypt_compare env cookies fresh with
  | Responded res => (res, t)
  | Escaped => (errorHandler env (escaped_message cookies) fresh, t)
  | Next _ =>
      match productRoutes route t fresh with
      | Some answer => answer
      | None => (notFound fresh, t)
      end
  end.

End WithLibraries.
End Index.

(* ================================================================== *)
(** ** Further vocabulary for the properties                           *)
(* ================================================================== *)


(** The query with another [page]. *)
Definition with_page (page : string) (q : ListQuery) : ListQuery :=
  mkListQuery (q_brand q) (q_category q) (q_search q) (q_available q)
              (Some page) (q_limit q).


(* ================================================================== *)
(** * Properties                                                       *)
(* ================================================================== *)

(** ** General facts *)

Lemma nonempty_some (o : option string) (s : string) :
  JS.nonempty o = Some s -> o = Some s /\ JS.str_truthy s = true.
Proof.
  destruct o as [x|]; simpl; [|discriminate].
  destruct (JS.str_truthy x) eqn:E; [|discriminate].
  intros H; injection H as <-. auto.
Qed.

Lemma nonempty_none_iff (o : option string) :
  JS.nonempty o = None <-> JS.opt_truthy o = false.
Proof.
  destruct o as [x|]; simpl; [|tauto].
  destruct (JS.str_truthy x); split; congruence.
Qed.

(** ** The access gate *)

Section GateFacts.

Variable bcrypt_compare : JS.value -> string -> CompareOutcome.
Variable env : Env.
Variable cookies : option (list (string * JS.value)).

Let sessionToken := cookie_of cookies "auth_session".
Let flow := Auth.requireAuth bcrypt_compare env cookies fresh.

Lemma gate_no_cookie :
  JS.truthy sessionToken = false -> Observe.status_of flow = Some 401.
Proof.
  intros H. unfold flow, Auth.requireAuth. fold sessionToken. now rewrite H.
Qed.

Lemma gate_no_hash :
  JS.truthy sessionToken = true ->
  JS.opt_truthy (ACCESS_CODE_HASH env) = false ->
  Observe.status_of flow = Some 500.
Proof.
  intros H Hh. apply nonempty_none_iff in Hh.
  unfold flow, Auth.requireAuth. fold sessionToken. now rewrite H, Hh.
Qed.

Lemma gate_compared (h : string) :
  JS.truthy sessionToken = true ->
  JS.nonempty (ACCESS_CODE_HASH env) = Some h ->
  match bcrypt_compare sessionToken h with
  | CompareThrows _ => flow = Escaped
  | CompareCallback (Some _) _ => Observe.status_of flow = Some 500
  | CompareCallback None false => Observe.status_of flow = Some 401
  | CompareCallback None true => flow = Next true
  end.
Proof.
  intros H Hh. unfold flow, Auth.requireAuth. fold sessionToken. rewrite H, Hh. simpl.
  destruct (bcrypt_compare sessionToken h) as [m|[e|] [|]]; reflexivity.
Qed.

Lemma gate_authorizes_iff :
  flow = Next true <->
  JS.truthy sessionToken = true /\
  exists h, JS.nonempty (ACCESS_CODE_HASH env) = Some h /\
            bcrypt_compare sessionToken h = CompareCallback None true.
Proof.
  unfold flow, Auth.requireAuth. fold sessionToken.
  destruct (JS.truthy sessionToken); simpl.
  2:{ split; [discriminate | intros [H _]; discriminate]. }
  destruct (JS.nonempty (ACCESS_CODE_HASH env)) as [h|]; simpl.
  2:{ split; [discriminate | intros [_ [h [H _]]]; discriminate]. }
  destruct (bcrypt_compare sessionToken h) as [m|[e|] [|]] eqn:E;
    split; try discriminate; try (intros [_ [h' [Hh Hc]]]; congruence).
  intros _. split; [reflexivity|]. exists h. auto.
Qed.

End GateFacts.

(** C1 (as the specification words it, refuted).  A cookie that
    cookie-parser decoded to an object is present, the hash is configured,
    and the comparison reports an error: the gate answers 500, where the
    four-branch function answers 401. *)
Lemma gate_compare_error_is_not_401 :
  let cookies := Some [("auth_session", JS.VObj)] in
  Sample.compare JS.VObj "$2b$10$abcdefghijklmnopqrstuv"
    = CompareCallback (Some "data must be a string or Buffer and hash must be a string") false /\
  Observe.status_of (Auth.requireAuth Sample.compare Sample.env cookies fresh) = Some 500 /\
  GateSpec.expected Sample.compare Sample.env cookies = Some 401.
Proof. repeat split. Qed.

(** C1 (as amended).  The access gate is a five-branch function of the
    request: without a session cookie (absent or empty) it answers 401;
    with a cookie but without a configured hash (absent or empty) it
    answers 500; with both, it answers 500 when the comparison reports an
    error, 401 when the comparison reports no match, and hands the request
    on, marked authenticated, when the comparison reports a match.  It
    hands a request on in no other case. *)
Theorem gate_five_branches
    (bcrypt_compare : JS.value -> string -> CompareOutcome) (env : Env)
    (cookies : option (list (string * JS.value))) :
  let sessionToken := cookie_of cookies "auth_session" in
  let flow := Auth.requireAuth bcrypt_compare env cookies fresh in
  (JS.truthy sessionToken = false -> Observe.status_of flow = Some 401) /\
  (JS.truthy sessionToken = true ->
   JS.opt_truthy (ACCESS_CODE_HASH env) = false ->
   Observe.status_of flow = Some 500) /\
  (forall h,
     JS.truthy sessionToken = true ->
     JS.nonempty (ACCESS_CODE_HASH env) = Some h ->
     match bcrypt_compare sessionToken h with
     | CompareThrows _ => flow = Escaped
     | CompareCallback (Some _) _ => Observe.status_of flow = Some 500
     | CompareCallback None false => Observe.status_of flow = Some 401
     | CompareCallback None true => flow = Next true
     end) /\
  (flow = Next true <->
   JS.truthy sessionToken = true /\
   exists h, JS.nonempty (ACCESS_CODE_HASH env) = Some h /\
             bcrypt_compare sessionToken h = CompareCallback None true).
Proof.
  intros sessionToken flow. split; [|split; [|split]].
  - apply gate_no_cookie.
  - apply gate_no_hash.
  - intros h. apply gate_compared.
  - apply gate_authorizes_iff.
Qed.

(** The five branches on concrete requests: no cookie, no hash, an object
    cookie, a wrong code, the right code. *)
Lemma gate_five_branches_witness :
  Observe.status_of (Auth.requireAuth Sample.compare Sample.env None fresh) = Some 401 /\
  Observe.status_of
    (Auth.requireAuth Sample.compare Sample.env_no_hash
       (Some [("auth_session", JS.VStr "lacosta")]) fresh) = Some 500 /\
  Observe.status_of
    (Auth.requireAuth Sample.compare Sample.env
       (Some [("auth_session", JS.VStr "guess")]) fresh) = Some 401 /\
  Auth.requireAuth Sample.compare Sample.env
    (Some [("auth_session", JS.VStr "lacosta")]) fresh = Next true.
Proof.
  split; [|split; [|split]].
  - exact (proj1 (gate_five_branches Sample.compare Sample.env None) eq_refl).
  - exact (proj1 (proj2 (gate_five_branches Sample.compare Sample.env_no_hash
             (Some [("auth_session", JS.VStr "lacosta")]))) eq_refl eq_refl).
  - exact (proj1 (proj2 (proj2 (gate_five_branches Sample.compare Sample.env
             (Some [("auth_session", JS.VStr "guess")]))))
             "$2b$10$abcdefghijklmnopqrstuv" eq_refl eq_refl).
  - exact (proj1 (proj2 (proj2 (gate_five_branches Sample.compare Sample.env
             (Some [("auth_session", JS.VStr "lacosta")]))))
             "$2b$10$abcdefghijklmnopqrstuv" eq_refl eq_refl).
Defined.

(** ** The authentication check *)

Section CheckAuthFacts.

Variable bcrypt_compare : JS.value -> string -> CompareOutcome.
Variable url_hostname : string -> option string.
Variable env : Env.
Variable req : AuthRequest.

Let sessionToken := cookie_of (cookies req) "auth_session".

Let session_verifies := GateSpec.session_verifies bcrypt_compare env (cookies req).

Lemma checkAuth_answer :
  let r := AuthController.checkAuth bcrypt_compare env req fresh in
  statusCode r = 200 /\
  Observe.field "authenticated" r = Some (JBool session_verifies) /\
  Observe.field "success" r = Some (JBool session_verifies).
Proof.
  unfold AuthController.checkAuth, session_verifies, GateSpec.session_verifies.
  fold sessionToken.
  destruct (JS.truthy sessionToken); simpl; [|auto].
  destruct (JS.nonempty (ACCESS_CODE_HASH env)) as [h|]; simpl; [|auto].
  destruct (bcrypt_compare sessionToken h) as [m|[e|] [|]]; simpl; auto.
Qed.

Lemma checkAuth_cfg_answer :
  let r := AuthControllerCfg.checkAuth bcrypt_compare env req fresh in
  statusCode r = 200 /\
  Observe.field "authenticated" r = Some (JBool session_verifies) /\
  Observe.field "success" r = Some (JBool session_verifies).
Proof.
  unfold AuthControllerCfg.checkAuth, session_verifies, GateSpec.session_verifies.
  fold sessionToken.
  destruct (JS.truthy sessionToken); simpl; [|auto].
  destruct (JS.nonempty (ACCESS_CODE_HASH env)) as [h|]; simpl; [|auto].
  destruct (bcrypt_compare sessionToken h) as [m|[e|] [|]]; simpl; auto.
Qed.

Lemma session_verifies_iff :
  session_verifies = true <->
  JS.truthy sessionToken = true /\
  exists h, JS.nonempty (ACCESS_CODE_HASH env) = Some h /\
            bcrypt_compare sessionToken h = CompareCallback None true.
Proof.
  unfold session_verifies, GateSpec.session_verifies. fold sessionToken.
  destruct (JS.truthy sessionToken); simpl.
  2:{ split; [discriminate | intros [H _]; discriminate]. }
  destruct (JS.nonempty (ACCESS_CODE_HASH env)) as [h|].
  2:{ split; [discriminate | intros [_ [h [H _]]]; discriminate]. }
  destruct (bcrypt_compare sessionToken h) as [m|[e|] [|]] eqn:E; simpl;
    split; try discriminate; try (intros [_ [h' [Hh Hc]]]; congruence).
  intros _. split; [reflexivity|]. exists h. auto.
Qed.

Lemma login_no_hash :
  JS.truthy (access_code req) = true ->
  JS.opt_truthy (ACCESS_CODE_HASH env) = false ->
  statusCode (AuthController.verifyAccessCode bcrypt_compare env req fresh) = 500 /\
  statusCode (AuthControllerCfg.verifyAccessCode bcrypt_compare url_hostname env req fresh) = 500.
Proof.
  intros Hc Hh. apply nonempty_none_iff in Hh.
  unfold AuthController.verifyAccessCode, AuthControllerCfg.verifyAccessCode.
  rewrite Hc, Hh. auto.
Qed.

End CheckAuthFacts.

(** C10.  The authentication check never answers with an error status.
    Whatever the cookie, the configuration and the behaviour of the
    comparison (a thrown exception and a reported error included), both
    copies of [checkAuth] answer 200 with [authenticated] (and [success])
    true exactly when a session cookie is present and the comparison with
    the configured hash calls back with a match, and false otherwise.  In
    particular, without a configured hash the check answers 200 with
    [authenticated: false], where the access gate (for a request with a
    cookie) and the login (for a request with a code) answer 500. *)
Theorem checkAuth_never_errors
    (bcrypt_compare : JS.value -> string -> CompareOutcome)
    (url_hostname : string -> option string) (env : Env) (req : AuthRequest) :
  let sessionToken := cookie_of (cookies req) "auth_session" in
  let verified := GateSpec.session_verifies bcrypt_compare env (cookies req) in
  let r := AuthController.checkAuth bcrypt_compare env req fresh in
  let r' := AuthControllerCfg.checkAuth bcrypt_compare env req fresh in
  (statusCode r = 200 /\
   Observe.field "authenticated" r = Some (JBool verified) /\
   Observe.field "success" r = Some (JBool verified)) /\
  (statusCode r' = 200 /\
   Observe.field "authenticated" r' = Some (JBool verified) /\
   Observe.field "success" r' = Some (JBool verified)) /\
  (verified = true <->
   JS.truthy sessionToken = true /\
   exists h, JS.nonempty (ACCESS_CODE_HASH env) = Some h /\
             bcrypt_compare sessionToken h = CompareCallback None true) /\
  (JS.opt_truthy (ACCESS_CODE_HASH env) = false ->
   verified = false /\
   (JS.truthy sessionToken = true ->
    Observe.status_of (Auth.requireAuth bcrypt_compare env (cookies req) fresh) = Some 500) /\
   (JS.truthy (access_code req) = true ->
    statusCode (AuthController.verifyAccessCode bcrypt_compare env req fresh) = 500 /\
    statusCode (AuthControllerCfg.verifyAccessCode bcrypt_compare url_hostname env req fresh) = 500)).
Proof.
  intros sessionToken verified r r'. split; [|split; [|split]].
  - apply checkAuth_answer.
  - apply checkAuth_cfg_answer.
  - apply session_verifies_iff.
  - intros Hh. split; [|split].
    + unfold verified, GateSpec.session_verifies.
      apply nonempty_none_iff in Hh. rewrite Hh. apply andb_false_r.
    + intros Ht. now apply gate_no_hash.
    + intros Hc. now apply login_no_hash.
Qed.

(** The check on concrete requests: the right cookie, and the right cookie
    when the hash is not configured. *)
Lemma checkAuth_never_errors_witness :
  Observe.field "authenticated"
    (AuthControllerCfg.checkAuth Sample.compare Sample.env
       (mkAuthRequest (Some [("auth_session", JS.VStr "lacosta")]) JS.VUndefined) fresh)
  = Some (JBool true) /\
  GateSpec.session_verifies Sample.compare Sample.env_no_hash
    (Some [("auth_session", JS.VStr "lacosta")]) = false.
Proof.
  split.
  - exact (proj1 (proj2 (proj1 (proj2
      (checkAuth_never_errors Sample.compare Sample.hostname Sample.env
         (mkAuthRequest (Some [("auth_session", JS.VStr "lacosta")]) JS.VUndefined)))))).
  - exact (proj1 (proj2 (proj2 (proj2
      (checkAuth_never_errors Sample.compare Sample.hostname Sample.env_no_hash
         (mkAuthRequest (Some [("auth_session", JS.VStr "lacosta")]) JS.VUndefined))))
      eq_refl)).
Defined.

(** ** The session cookie's attributes *)

(** In [src/controllers/authController.ts] the login sets the cookie with
    [httpOnly], [secure], [sameSite: 'strict'] and [maxAge]. *)
Lemma login_cookie_options
    (bcrypt_compare : JS.value -> string -> CompareOutcome) (env : Env)
    (req : AuthRequest) (o : CookieOptions) :
  Observe.set_cookie_options
    (AuthController.verifyAccessCode bcrypt_compare env req fresh) = Some o ->
  httpOnly o = Some true /\ sameSite o = Some SameSiteStrict /\
  path o = None /\ maxAge o = Some 86400000.
Proof.
  unfold AuthController.verifyAccessCode.
  destruct (JS.truthy (access_code req)); simpl; [|discriminate].
  destruct (JS.nonempty (ACCESS_CODE_HASH env)) as [h|]; simpl; [|discriminate].
  destruct (bcrypt_compare (access_code req) h) as [m|[e|] [|]]; simpl;
    try discriminate.
  intros H. injection H as <-. simpl. auto.
Qed.

(** In the copy of the controller that goes through [getCookieConfig], the
    logout clears the cookie with the attribute set the login set it
    with. *)
Lemma logout_cfg_same_attributes
    (bcrypt_compare : JS.value -> string -> CompareOutcome)
    (url_hostname : string -> option string) (env : Env) (req : AuthRequest)
    (o : CookieOptions) :
  Observe.set_cookie_options
    (AuthControllerCfg.verifyAccessCode bcrypt_compare url_hostname env req fresh)
    = Some o ->
  Observe.clear_cookie_options (AuthControllerCfg.logout url_hostname env fresh)
    = Some o /\
  o = CookieConfig.getCookieConfig url_hostname env.
Proof.
  unfold AuthControllerCfg.verifyAccessCode.
  destruct (JS.truthy (access_code req)); simpl; [|discriminate].
  destruct (JS.nonempty (ACCESS_CODE_HASH env)) as [h|]; simpl; [|discriminate].
  destruct (bcrypt_compare (access_code req) h) as [m|[e|] [|]]; simpl;
    try discriminate.
  intros H. injection H as <-. auto.
Qed.

(** The attribute set [getCookieConfig] computes for a production
    deployment whose front end and back end are on different hosts. *)
Lemma cookie_config_cross_site :
  CookieConfig.getCookieConfig Sample.hostname Sample.env =
    {| httpOnly := Some true; secure := Some true; sameSite := Some SameSiteNone;
       path := Some "/"; maxAge := Some 86400000 |}.
Proof. reflexivity. Qed.

(** C5 (on [src/controllers/authController.ts]).  After a successful login
    in production the cookie carries [httpOnly], [secure], [sameSite:
    'strict'] and [maxAge]; the logout of the same file clears the cookie
    with no attribute at all, so the two attribute sets differ. *)
Theorem logout_drops_login_attributes :
  let login :=
    AuthController.verifyAccessCode Sample.compare Sample.env
      (mkAuthRequest None (JS.VStr "lacosta")) fresh in
  let out := AuthController.logout fresh in
  Observe.set_cookie_options login =
    Some {| httpOnly := Some true; secure := Some true;
            sameSite := Some SameSiteStrict; path := None;
            maxAge := Some 86400000 |} /\
  Observe.clear_cookie_options out = Some no_options /\
  Observe.set_cookie_options login <> Observe.clear_cookie_options out.
Proof.
  split; [reflexivity | split; [reflexivity | discriminate]].
Qed.

(** ** The image URL issuer *)

Lemma bucket_truthy (env : Env) :
  JS.str_truthy (S3Service.BUCKET_NAME env) = JS.opt_truthy (S3_BUCKET env).
Proof.
  unfold S3Service.BUCKET_NAME, JS.or_default, JS.opt_truthy.
  destruct (S3_BUCKET env) as [b|]; [|reflexivity].
  destruct (JS.str_truthy b) eqn:E; [assumption | reflexivity].
Qed.

Section IssuerFacts.

Variable getSignedUrl : S3Service.SignRequest -> Result string.
Variable env : Env.

Lemma issuer_guard (imageFilename : option string) (expiresIn : Z) :
  JS.opt_truthy imageFilename = false \/ JS.opt_truthy (S3_BUCKET env) = false ->
  S3Service.getPresignedImageUrl getSignedUrl env imageFilename expiresIn = (Ok None, []).
Proof.
  intros H. unfold S3Service.getPresignedImageUrl. rewrite bucket_truthy.
  destruct H as [H | ->].
  - apply nonempty_none_iff in H. now rewrite H.
  - now destruct (JS.nonempty imageFilename).
Qed.

Lemma issuer_signs (imageFilename : option string) (expiresIn : Z) (f b : string) :
  JS.nonempty imageFilename = Some f ->
  JS.nonempty (S3_BUCKET env) = Some b ->
  S3Service.getPresignedImageUrl getSignedUrl env imageFilename expiresIn =
    let command := S3Service.mkSignRequest b f expiresIn in
    (Ok match getSignedUrl command with
        | Ok presignedUrl => Some presignedUrl
        | Throw _ _ => None
        end,
     [command]).
Proof.
  intros Hf Hb.
  unfold S3Service.getPresignedImageUrl. rewrite Hf, bucket_truthy.
  apply nonempty_some in Hb as [Hb Hb'].
  unfold S3Service.BUCKET_NAME. rewrite Hb. simpl. rewrite Hb'. simpl.
  destruct (getSignedUrl _); reflexivity.
Qed.

Lemma issuer_returns (imageFilename : option string) (expiresIn : Z) :
  exists v,
    fst (S3Service.getPresignedImageUrl getSignedUrl env imageFilename expiresIn) = Ok v.
Proof.
  unfold S3Service.getPresignedImageUrl.
  destruct (JS.nonempty imageFilename), (JS.str_truthy (S3Service.BUCKET_NAME env));
    simpl; eauto.
Qed.

(** The JSON a handler sends for a product. *)
Lemma withImageUrl_returns (product : Product) :
  exists image_url,
    ProductController.withImageUrl getSignedUrl env product =
      Ok (JObj (toJSON product ++ [("image_url", of_opt_string image_url)])).
Proof.
  unfold ProductController.withImageUrl.
  destruct (issuer_returns
              (Some (JS.or_default (image_filename product) "placeholder.webp")) 3600)
    as [v ->].
  simpl. eauto.
Qed.

Lemma getProductById_found (i : Z) (t : Table) (product : Product) :
  findByPk i t = Some product ->
  statusCode (ProductController.getProductById getSignedUrl env i t fresh) = 200.
Proof.
  intros H. unfold ProductController.getProductById. rewrite H.
  destruct (withImageUrl_returns product) as [u ->]. reflexivity.
Qed.

End IssuerFacts.

(** C4.  The image URL issuer returns null, and sends nothing to the
    presigner, when the filename is null or empty or the bucket name is not
    configured.  Otherwise it sends one request, for that exact key, and
    returns the signed URL, or null when the presigner throws.  It never
    throws itself, so building the JSON of a product never fails, and a
    product that exists is answered with 200 whatever the presigner
    does. *)
Theorem issuer_never_fails
    (getSignedUrl : S3Service.SignRequest -> Result string) (env : Env)
    (imageFilename : option string) (expiresIn : Z) :
  let issued := S3Service.getPresignedImageUrl getSignedUrl env imageFilename expiresIn in
  (JS.opt_truthy imageFilename = false \/ JS.opt_truthy (S3_BUCKET env) = false ->
   issued = (Ok None, [])) /\
  (forall f b,
     JS.nonempty imageFilename = Some f ->
     JS.nonempty (S3_BUCKET env) = Some b ->
     let command := S3Service.mkSignRequest b f expiresIn in
     snd issued = [command] /\
     fst issued = Ok match getSignedUrl command with
                     | Ok presignedUrl => Some presignedUrl
                     | Throw _ _ => None
                     end) /\
  (exists v, fst issued = Ok v) /\
  (forall product, exists image_url,
     ProductController.withImageUrl getSignedUrl env product =
       Ok (JObj (toJSON product ++ [("image_url", of_opt_string image_url)]))) /\
  (forall i t product,
     findByPk i t = Some product ->
     statusCode (ProductController.getProductById getSignedUrl env i t fresh) = 200).
Proof.
  intros issued. split; [|split; [|split; [|split]]].
  - apply issuer_guard.
  - intros f b Hf Hb. unfold issued. rewrite (issuer_signs _ _ _ _ f b Hf Hb).
    split; reflexivity.
  - apply issuer_returns.
  - apply withImageUrl_returns.
  - apply getProductById_found.
Qed.

(** The issuer on concrete inputs: a null filename, an empty filename, and
    a key the presigner fails on. *)
Lemma issuer_never_fails_witness :
  S3Service.getPresignedImageUrl Sample.sign Sample.env None 3600 = (Ok None, []) /\
  S3Service.getPresignedImageUrl Sample.sign Sample.env (Some "") 3600 = (Ok None, []) /\
  fst (S3Service.getPresignedImageUrl Sample.sign Sample.env (Some "missing.webp") 3600)
    = Ok None.
Proof.
  split; [|split].
  - exact (proj1 (issuer_never_fails Sample.sign Sample.env None 3600) (or_introl eq_refl)).
  - exact (proj1 (issuer_never_fails Sample.sign Sample.env (Some "") 3600)
             (or_introl eq_refl)).
  - exact (proj2 (proj1 (proj2
             (issuer_never_fails Sample.sign Sample.env (Some "missing.webp") 3600))
             "missing.webp" "lacosta-images" eq_refl eq_refl)).
Defined.

(** ** Updates of one row *)

Lemma findByPk_id (i : Z) (t : Table) (p : Product) :
  findByPk i t = Some p -> id p = i /\ In p (rows t).
Proof.
  unfold findByPk. intros H. apply find_some in H as [Hin Hid].
  apply Z.eqb_eq in Hid. auto.
Qed.

Lemma findByPk_rewritten (i : Z) (rs : list Product) (n n' : Z) (p p' : Product) :
  findByPk i (mkTable rs n) = Some p ->
  id p' = id p ->
  findByPk i (mkTable (map (fun r => if id r =? id p then p' else r) rs) n') = Some p'.
Proof.
  unfold findByPk. simpl. intros H Hid.
  assert (Hp : id p = i)
    by (apply find_some in H as [_ Hp]; now apply Z.eqb_eq in Hp).
  subst i.
  induction rs as [|r rs IH]; simpl in *; [discriminate|].
  destruct (id r =? id p) eqn:E.
  - simpl. now rewrite Hid, Z.eqb_refl.
  - simpl. rewrite E. now apply IH.
Qed.

Section RowFacts.

Variable getSignedUrl : S3Service.SignRequest -> Result string.
Variable env : Env.

(** An update that gives only [available]. *)
Lemma update_available (p : Product) (b : bool) (t : Table) :
  update p (mkProductInput Absent Absent Absent Absent Absent Absent Absent Absent
                           Absent Absent Absent (Given b) Absent) t
  = Ok (with_available (Some b) p,
        {| rows := map (fun r => if id r =? id p then with_available (Some b) p else r)
                       (rows t);
           nextId := nextId t |}).
Proof.
  unfold update. simpl. rewrite String.eqb_refl. reflexivity.
Qed.

(** An update that gives only [comments]. *)
Lemma update_comments (p : Product) (c : Field string) (t : Table) :
  c <> Absent ->
  update p (mkProductInput Absent Absent Absent Absent Absent Absent Absent Absent
                           Absent Absent Absent Absent c) t
  = Ok (with_comments (merge (comments p) c) p,
        {| rows := map (fun r => if id r =? id p
                                 then with_comments (merge (comments p) c) p else r)
                       (rows t);
           nextId := nextId t |}).
Proof.
  intros _. unfold update. simpl. rewrite String.eqb_refl. reflexivity.
Qed.

Lemma toggle_found (i : Z) (t : Table) (p : Product) :
  findByPk i t = Some p ->
  let p' := with_available (Some (ProductController.not_available p)) p in
  exists r,
    ProductController.toggleAvailability getSignedUrl env i t fresh =
      (r, {| rows := map (fun x => if id x =? id p then p' else x) (rows t);
             nextId := nextId t |}) /\
    statusCode r = 200 /\
    findByPk i {| rows := map (fun x => if id x =? id p then p' else x) (rows t);
                  nextId := nextId t |} = Some p'.
Proof.
  intros H p'. unfold ProductController.toggleAvailability. rewrite H.
  rewrite update_available. simpl. fold p'.
  destruct (withImageUrl_returns getSignedUrl env p') as [u ->]. simpl.
  eexists. split; [reflexivity|]. split; [reflexivity|].
  destruct t as [rs n]. now apply findByPk_rewritten with (n := n).
Qed.

Lemma comments_found (i : Z) (comments : Field string) (t : Table) (p : Product) :
  findByPk i t = Some p ->
  let stored :=
    match comments with
    | Given s => if (s =? "")%string then None else Some s
    | _ => None
    end in
  let p' := with_comments stored p in
  exists r,
    ProductController.updateComments getSignedUrl env i comments t fresh =
      (r, {| rows := map (fun x => if id x =? id p then p' else x) (rows t);
             nextId := nextId t |}) /\
    statusCode r = 200 /\
    findByPk i {| rows := map (fun x => if id x =? id p then p' else x) (rows t);
                  nextId := nextId t |} = Some p'.
Proof.
  intros H stored p'. unfold ProductController.updateComments. rewrite H.
  assert (Hm : merge (ProductModel.comments p) (ProductController.or_null comments)
               = stored /\ ProductController.or_null comments <> Absent).
  { unfold ProductController.or_null, ProductController.field_truthy, JS.str_truthy, stored.
    destruct comments as [| |s]; simpl; try (split; [reflexivity|discriminate]).
    destruct (s =? "")%string; simpl; split; (reflexivity || discriminate). }
  destruct Hm as [Hm Hne].
  rewrite (update_comments p _ t Hne), Hm. simpl. fold p'.
  destruct (withImageUrl_returns getSignedUrl env p') as [u ->]. simpl.
  eexists. split; [reflexivity|]. split; [reflexivity|].
  destruct t as [rs n]. now apply findByPk_rewritten with (n := n).
Qed.

End RowFacts.

(** C6.  For a product that exists and whose [available] holds a boolean,
    [toggleAvailability] answers 200 and stores the negation of that
    boolean; a second [toggleAvailability] answers 200 and stores the
    original row again. *)
Theorem toggle_twice_restores
    (getSignedUrl : S3Service.SignRequest -> Result string) (env : Env)
    (i : Z) (t : Table) (p : Product) (b : bool) :
  findByPk i t = Some p ->
  available p = Some b ->
  let once := ProductController.toggleAvailability getSignedUrl env i t fresh in
  let twice := ProductController.toggleAvailability getSignedUrl env i (snd once) fresh in
  statusCode (fst once) = 200 /\
  findByPk i (snd once) = Some (with_available (Some (negb b)) p) /\
  statusCode (fst twice) = 200 /\
  findByPk i (snd twice) = Some p.
Proof.
  intros H Hb once twice.
  destruct (toggle_found getSignedUrl env i t p H) as [r1 [E1 [S1 F1]]].
  assert (Hn : ProductController.not_available p = negb b)
    by (unfold ProductController.not_available; now rewrite Hb).
  rewrite Hn in E1, F1.
  destruct (toggle_found getSignedUrl env i _ _ F1) as [r2 [E2 [S2 F2]]].
  unfold twice, once. rewrite E1. cbn [fst snd]. rewrite E2. cbn [fst snd].
  split; [assumption|]. split; [exact F1|]. split; [assumption|].
  rewrite F2. f_equal.
  unfold ProductController.not_available. simpl. rewrite negb_involutive.
  destruct p; simpl in *; now subst.
Qed.

(** Toggling the first sample product twice. *)
Lemma toggle_twice_restores_witness :
  let once := ProductController.toggleAvailability Sample.sign Sample.env 1 Sample.table fresh in
  let twice := ProductController.toggleAvailability Sample.sign Sample.env 1 (snd once) fresh in
  statusCode (fst once) = 200 /\
  findByPk 1 (snd once) = Some (with_available (Some false) Sample.soap) /\
  statusCode (fst twice) = 200 /\
  findByPk 1 (snd twice) = Some Sample.soap.
Proof.
  exact (toggle_twice_restores Sample.sign Sample.env 1 Sample.table Sample.soap true
           eq_refl eq_refl).
Defined.

(** C7.  For a product that exists, [updateComments] answers 200 and
    stores null when the body's [comments] is the empty string, is left
    out or is null, and stores the text as given when it is a non-empty
    string; it never stores the empty string. *)
Theorem comments_normalised
    (getSignedUrl : S3Service.SignRequest -> Result string) (env : Env)
    (i : Z) (t : Table) (p : Product) (comments : Field string) :
  findByPk i t = Some p ->
  let answer := ProductController.updateComments getSignedUrl env i comments t fresh in
  statusCode (fst answer) = 200 /\
  exists p',
    findByPk i (snd answer) = Some p' /\
    ProductModel.comments p' <> Some "" /\
    (comments = Given "" \/ comments = Absent \/ comments = Null ->
     ProductModel.comments p' = None) /\
    (forall text, comments = Given text -> text <> "" ->
     ProductModel.comments p' = Some text).
Proof.
  intros H answer.
  destruct (comments_found getSignedUrl env i comments t p H) as [r [E [S F]]].
  unfold answer. rewrite E. cbn [fst snd]. split; [assumption|].
  eexists. split; [exact F|]. simpl.
  split; [|split].
  - destruct comments as [| |s]; try discriminate.
    destruct (String.eqb_spec s ""); [discriminate | congruence].
  - intros [-> | [-> | ->]]; reflexivity.
  - intros text -> Hne. apply String.eqb_neq in Hne. now rewrite Hne.
Qed.

(** Comments of the first sample product: the empty string, a missing
    field, a text. *)
Lemma comments_normalised_witness :
  (exists p',
     findByPk 1 (snd (ProductController.updateComments Sample.sign Sample.env 1
                        (Given "") Sample.table fresh)) = Some p' /\
     ProductModel.comments p' = None) /\
  (exists p',
     findByPk 1 (snd (ProductController.updateComments Sample.sign Sample.env 1
                        Absent Sample.table fresh)) = Some p' /\
     ProductModel.comments p' = None) /\
  (exists p',
     findByPk 1 (snd (ProductController.updateComments Sample.sign Sample.env 1
                        (Given "sin stock") Sample.table fresh)) = Some p' /\
     ProductModel.comments p' = Some "sin stock").
Proof.
  split; [|split].
  - destruct (comments_normalised Sample.sign Sample.env 1 Sample.table Sample.soap
                (Given "") eq_refl) as [_ [p' [F [_ [N _]]]]].
    exists p'. split; [exact F | exact (N (or_introl eq_refl))].
  - destruct (comments_normalised Sample.sign Sample.env 1 Sample.table Sample.soap
                Absent eq_refl) as [_ [p' [F [_ [N _]]]]].
    exists p'. split; [exact F | exact (N (or_intror (or_introl eq_refl)))].
  - destruct (comments_normalised Sample.sign Sample.env 1 Sample.table Sample.soap
                (Given "sin stock") eq_refl) as [_ [p' [F [_ [_ G]]]]].
    exists p'. split; [exact F|]. apply (G "sin stock" eq_refl). discriminate.
Defined.

(** ** The [available] column *)

Ltac break_match :=
  match goal with
  | H : context [match ?x with _ => _ end] |- _ => destruct x eqn:?
  | |- context [match ?x with _ => _ end] => destruct x eqn:?
  end.

Lemma check_null_available (a : option bool) :
  check_null attr_available a = Ok tt -> a <> None.
Proof. destruct a; simpl; [discriminate | discriminate]. Qed.

Lemma create_row (v : ProductInput) (t : Table) (p : Product) (t' : Table) :
  create v t = Ok (p, t') ->
  rows t' = (rows t ++ [p])%list /\
  available p <> None /\
  (in_available v = Absent -> available p = Some true).
Proof.
  unfold create, bind. intros H.
  destruct (check_null attr_ean _); [|discriminate].
  destruct (check_empty attr_ean _); [|discriminate].
  destruct (check_null attr_available _) as [[]|] eqn:Ea; [|discriminate].
  destruct (build attr_ean (in_ean v)) as [e|]; [|discriminate].
  destruct (check_unique _ t); [|discriminate].
  injection H as <- <-. simpl.
  split; [reflexivity|]. split; [now apply check_null_available in Ea|].
  now intros ->.
Qed.

Lemma update_row (p : Product) (v : ProductInput) (t : Table) (p' : Product) (t' : Table) :
  update p v t = Ok (p', t') ->
  rows t' = map (fun r => if id r =? id p then p' else r) (rows t) /\
  (available p <> None -> available p' <> None).
Proof.
  unfold update, bind, when. intros H.
  destruct (if given (in_ean v) then check_null attr_ean _ else Ok tt); [|discriminate].
  destruct (if given (in_ean v) then check_empty attr_ean _ else Ok tt); [|discriminate].
  destruct (if given (in_available v) then check_null attr_available _ else Ok tt)
    as [[]|] eqn:Ea; [|discriminate].
  destruct (merge (Some (ean p)) (in_ean v)) as [e|]; [|discriminate].
  destruct (if (e =? ean p)%string then Ok tt else check_unique _ t); [|discriminate].
  injection H as <- <-. simpl.
  split; [reflexivity|].
  intros Hp. destruct (in_available v); simpl in *;
    [assumption | discriminate Ea | discriminate].
Qed.

Lemma rewritten_not_null (t : Table) (p p' : Product) (rs : list Product) :
  available_not_null t ->
  available p' <> None ->
  rs = map (fun r => if id r =? id p then p' else r) (rows t) ->
  Forall (fun r => available r <> None) rs.
Proof.
  unfold available_not_null. intros Ht Hp ->.
  apply Forall_forall. intros r Hr. apply in_map_iff in Hr as [r0 [<- Hin]].
  destruct (id r0 =? id p); [assumption|].
  now apply (proj1 (Forall_forall _ _) Ht).
Qed.

Section AvailableFacts.

Variable getSignedUrl : S3Service.SignRequest -> Result string.
Variable env : Env.

Lemma createProduct_outcome (v : ProductInput) (t : Table) (res : Response) :
  let answer := ProductController.createProduct getSignedUrl env v t res in
  (statusCode (fst answer) <> 201 /\ snd answer = t) \/
  (statusCode (fst answer) = 201 /\
   exists p, create v t = Ok (p, snd answer)).
Proof.
  unfold ProductController.createProduct.
  destruct (_ || _)%bool; simpl.
  { left. split; [discriminate | reflexivity]. }
  destruct (create v t) as [[p t']|n m] eqn:Ec; simpl.
  - destruct (withImageUrl_returns getSignedUrl env p) as [u ->]. simpl.
    right. split; [reflexivity|]. now exists p.
  - left. destruct (n =? _)%string; simpl; split; (discriminate || reflexivity).
Qed.

Lemma createProduct_preserves (v : ProductInput) (t : Table) (res : Response) :
  available_not_null t ->
  available_not_null (snd (ProductController.createProduct getSignedUrl env v t res)).
Proof.
  intros Ht.
  destruct (createProduct_outcome v t res) as [[_ ->] | [_ [p Hc]]]; [assumption|].
  apply create_row in Hc as [Hr [Hp _]].
  unfold available_not_null. rewrite Hr. apply Forall_app. split; [exact Ht|].
  constructor; [exact Hp | constructor].
Qed.

Lemma updateProduct_preserves (i : Z) (v : ProductInput) (t : Table) (res : Response) :
  available_not_null t ->
  available_not_null (snd (ProductController.updateProduct getSignedUrl env i v t res)).
Proof.
  intros Ht. unfold ProductController.updateProduct.
  destruct (findByPk i t) as [p|] eqn:Ef; simpl; [|assumption].
  destruct (update p v t) as [[p' t']|n m] eqn:Eu; simpl.
  - destruct (withImageUrl_returns getSignedUrl env p') as [u ->]. simpl.
    apply update_row in Eu as [Hr Hp].
    apply findByPk_id in Ef as [_ Hin].
    apply (rewritten_not_null t p p'); auto.
    apply Hp. now apply (proj1 (Forall_forall _ _) Ht).
  - destruct (n =? _)%string; simpl; assumption.
Qed.

Lemma toggleAvailability_preserves (i : Z) (t : Table) (res : Response) :
  available_not_null t ->
  available_not_null (snd (ProductController.toggleAvailability getSignedUrl env i t res)).
Proof.
  intros Ht. unfold ProductController.toggleAvailability.
  destruct (findByPk i t) as [p|] eqn:Ef; simpl; [|assumption].
  rewrite update_available. simpl.
  destruct (withImageUrl_returns getSignedUrl env
              (with_available (Some (ProductController.not_available p)) p)) as [u ->].
  simpl. apply (rewritten_not_null t p (with_available (Some (ProductController.not_available p)) p));
    auto.
  discriminate.
Qed.

End AvailableFacts.

(** C8.  [available] is declared with [allowNull: false] and
    [defaultValue: true]; a product created by a body that leaves
    [available] out is stored with [available] true; and if no row of the
    table has a null [available] before a create, an update or a toggle,
    none has one after it, whatever the body (a body that sets [available]
    to null is refused and leaves the table as it was). *)
Theorem available_never_null
    (getSignedUrl : S3Service.SignRequest -> Result string) (env : Env) :
  (allowNull attr_available = false /\ defaultValue attr_available = Some true) /\
  (forall v t,
     in_available v = Absent ->
     let answer := ProductController.createProduct getSignedUrl env v t fresh in
     statusCode (fst answer) = 201 ->
     exists p, rows (snd answer) = (rows t ++ [p])%list /\ available p = Some true) /\
  (forall v t,
     available_not_null t ->
     available_not_null (snd (ProductController.createProduct getSignedUrl env v t fresh))) /\
  (forall i v t,
     available_not_null t ->
     available_not_null (snd (ProductController.updateProduct getSignedUrl env i v t fresh))) /\
  (forall i t,
     available_not_null t ->
     available_not_null (snd (ProductController.toggleAvailability getSignedUrl env i t fresh))).
Proof.
  split; [split; reflexivity|]. split; [|split; [|split]].
  - intros v t Habs answer H201.
    destruct (createProduct_outcome getSignedUrl env v t fresh) as [[Hn _] | [_ [p Hc]]].
    + now elim Hn.
    + apply create_row in Hc as [Hr [_ Hd]]. exists p. split; [exact Hr | now apply Hd].
  - intros v t. apply createProduct_preserves.
  - intros i v t. apply updateProduct_preserves.
  - intros i t. apply toggleAvailability_preserves.
Qed.

(** A create that leaves [available] out, and an update that sets it to
    null, on the sample table. *)
Lemma available_never_null_witness :
  let body :=
    mkProductInput (Given "7790004") (Given "Sponge") Absent (Given "Acme") Absent Absent
                   Absent Absent Absent Absent Absent Absent Absent in
  let nulls :=
    mkProductInput Absent Absent Absent Absent Absent Absent Absent Absent Absent Absent
                   Absent Null Absent in
  (exists p,
     rows (snd (ProductController.createProduct Sample.sign Sample.env body Sample.table fresh))
       = (rows Sample.table ++ [p])%list /\
     available p = Some true) /\
  available_not_null
    (snd (ProductController.updateProduct Sample.sign Sample.env 1 nulls Sample.table fresh)).
Proof.
  intros body nulls. split.
  - exact (proj1 (proj2 (available_never_null Sample.sign Sample.env)) body Sample.table
             eq_refl eq_refl).
  - apply (proj1 (proj2 (proj2 (proj2 (available_never_null Sample.sign Sample.env))))).
    repeat constructor; discriminate.
Defined.

(** ** The list handler's answers *)

Section ListFacts.

Variable getSignedUrl : S3Service.SignRequest -> Result string.
Variable env : Env.

Lemma withImageUrl_rendered (p : Product) :
  ProductController.withImageUrl getSignedUrl env p
  = Ok (Observe.rendered getSignedUrl env p).
Proof.
  unfold ProductController.withImageUrl, Observe.rendered, Observe.image_url_of.
  destruct (issuer_returns getSignedUrl env
              (Some (JS.or_default (image_filename p) "placeholder.webp")) 3600)
    as [v ->].
  reflexivity.
Qed.

Lemma mapM_rendered (l : list Product) :
  ProductController.mapM (ProductController.withImageUrl getSignedUrl env) l
  = Ok (map (Observe.rendered getSignedUrl env) l).
Proof.
  induction l as [|p l IH]; simpl; [reflexivity|].
  now rewrite withImageUrl_rendered, IH.
Qed.



(** Whatever the query, the handler answers 200 with [success], [data]
    and [count] (and [pagination] when both bounds were given), or 500. *)
Lemma getAllProducts_envelope (q : ListQuery) (t : Table) :
  let r := ProductController.getAllProducts getSignedUrl env q t fresh in
  statusCode r = 500 \/
  (statusCode r = 200 /\
   (Observe.keys r = ["success"; "data"; "count"] \/
    Observe.keys r = ["success"; "data"; "count"; "pagination"]) /\
   exists items,
     Observe.data_items r = Some items /\
     Observe.field "count" r = Some (JNum (Z.of_nat (List.length items)))).
Proof.
  unfold ProductController.getAllProducts.
  destruct (ProductController.number_of (q_page q)) as [pn|];
    destruct (ProductController.number_of (q_limit q)) as [ln|];
    cbv zeta;
    match goal with
    | |- context [Sql.findAll ?o t] => destruct (Sql.findAll o t) as [ps|n m]
    end; simpl; auto;
    rewrite mapM_rendered; simpl; right; (split; [reflexivity|]);
    (split; [auto | eexists; split; reflexivity]).
Qed.

End ListFacts.

(** C9 (as the specification words it, refuted).  On the sample table the
    brands list and the categories list answer 200 with an envelope that
    has no [count] key. *)
Lemma brands_and_categories_have_no_count :
  let brands := ProductController.getBrands Sample.table fresh in
  let categories := ProductController.getCategories Sample.table fresh in
  (statusCode brands = 200 /\
   Observe.field "data" brands = Some (JArr [JStr "Acme"; JStr "Zeta"]) /\
   Observe.field "count" brands = None) /\
  (statusCode categories = 200 /\
   Observe.field "data" categories = Some (JArr []) /\
   Observe.field "count" categories = None).
Proof. repeat split. Qed.

(** C9 (as amended).  Of the collection responses only the product list
    carries [count]: whenever it answers 200 its envelope is [success],
    [data], [count] (then [pagination], when both bounds were given), with
    [count] the number of items in [data]; the envelope of the brands list
    and of the categories list is [success] and [data] only. *)
Theorem count_only_on_product_list
    (getSignedUrl : S3Service.SignRequest -> Result string) (env : Env)
    (q : ListQuery) (t : Table) :
  let r := ProductController.getAllProducts getSignedUrl env q t fresh in
  (statusCode r = 500 \/
   (statusCode r = 200 /\
    (Observe.keys r = ["success"; "data"; "count"] \/
     Observe.keys r = ["success"; "data"; "count"; "pagination"]) /\
    exists items,
      Observe.data_items r = Some items /\
      Observe.field "count" r = Some (JNum (Z.of_nat (List.length items))))) /\
  Observe.keys (ProductController.getBrands t fresh) = ["success"; "data"] /\
  Observe.keys (ProductController.getCategories t fresh) = ["success"; "data"].
Proof.
  intros r. split; [apply getAllProducts_envelope|]. split; reflexivity.
Qed.

(** ** Ordering *)

Section OrderFacts.

Context {A : Type} (leb : A -> A -> bool).
Hypothesis leb_total : forall x y, leb x y = false -> leb y x = true.







End OrderFacts.

Section WindowFacts.

Context {A : Type} (R : A -> A -> Prop).





End WindowFacts.







(** ** Patterns *)







(** ** The [where] object of a query *)











(** ** Selection, order and pagination of the product list *)


Section ShownFacts.

Variable getSignedUrl : S3Service.SignRequest -> Result string.
Variable env : Env.


End ShownFacts.







(* ================================================================== *)
(** * Further properties of the code                                   *)
(* ================================================================== *)

(** ** The cookie attributes *)

(** X1.  Whatever the environment and the URL parser, [getCookieConfig]
    yields an [httpOnly] cookie for path [/] that lives 24 hours; its
    [sameSite] is [none] or [lax], never [strict]; and a [sameSite: none]
    cookie is always [secure]. *)
Theorem cookie_config_invariants
    (url_hostname : string -> option string) (env : Env) :
  let c := CookieConfig.getCookieConfig url_hostname env in
  httpOnly c = Some true /\
  path c = Some "/" /\
  maxAge c = Some 86400000 /\
  (sameSite c = Some SameSiteNone \/ sameSite c = Some SameSiteLax) /\
  (sameSite c = Some SameSiteNone -> secure c = Some true).
Proof.
  unfold CookieConfig.getCookieConfig. cbv zeta.
  match goal with
  | |- context [if ?b then SameSiteNone else SameSiteLax] => destruct b
  end; simpl; repeat split; auto; discriminate.
Qed.

(** X2.  [secure] is set exactly in production.  Outside production the
    cookie is [sameSite: lax].  In production it is [sameSite: none] when
    the hostnames of the front end and the back end differ, and also when
    they are equal but neither URL mentions [localhost]; it is [lax] when
    the hostnames are equal and one of the URLs mentions [localhost]. *)
Theorem cookie_config_by_environment
    (url_hostname : string -> option string) (env : Env) :
  let c := CookieConfig.getCookieConfig url_hostname env in
  let production :=
    match NODE_ENV env with
    | Some v => (v =? "production")%string
    | None => false
    end in
  let frontendUrl := JS.or_default (FRONTEND_URL env) "http://localhost:3000" in
  let backendUrl := JS.or_default (BACKEND_URL env) "http://localhost:3001" in
  let same_host :=
    (CookieConfig.getDomain url_hostname frontendUrl
     =? CookieConfig.getDomain url_hostname backendUrl)%string in
  let local :=
    (JS.includes frontendUrl "localhost" || JS.includes backendUrl "localhost")%bool in
  secure c = Some production /\
  (production = false -> sameSite c = Some SameSiteLax) /\
  (production = true -> same_host = false -> sameSite c = Some SameSiteNone) /\
  (production = true -> local = false -> sameSite c = Some SameSiteNone) /\
  (production = true -> same_host = true -> local = true ->
   sameSite c = Some SameSiteLax).
Proof.
  unfold CookieConfig.getCookieConfig. cbv zeta.
  destruct (match NODE_ENV env with Some v => (v =? "production")%string | None => false end);
    destruct (CookieConfig.getDomain url_hostname _ =? CookieConfig.getDomain url_hostname _)%string;
    destruct (JS.includes (JS.or_default (FRONTEND_URL env) _) "localhost");
    destruct (JS.includes (JS.or_default (BACKEND_URL env) _) "localhost");
    simpl; repeat split; intros; try reflexivity; try discriminate.
Qed.

(** A production deployment on two hosts, and a development machine. *)
Lemma cookie_config_by_environment_witness :
  sameSite (CookieConfig.getCookieConfig Sample.hostname Sample.env) = Some SameSiteNone /\
  sameSite (CookieConfig.getCookieConfig Sample.hostname
              (mkEnv (Some "development") None None None None)) = Some SameSiteLax.
Proof.
  split.
  - exact (proj1 (proj2 (proj2 (cookie_config_by_environment Sample.hostname Sample.env)))
             eq_refl eq_refl).
  - exact (proj1 (proj2 (cookie_config_by_environment Sample.hostname
             (mkEnv (Some "development") None None None None))) eq_refl).
Defined.

(** ** The login *)

Section LoginFacts.

Variable bcrypt_compare : JS.value -> string -> CompareOutcome.
Variable url_hostname : string -> option string.
Variable env : Env.
Variable req : AuthRequest.

(** The submitted code is present and verifies against the configured
    hash. *)
Let accepted : bool :=
  (JS.truthy (access_code req) &&
   match JS.nonempty (ACCESS_CODE_HASH env) with
   | Some h => GateSpec.verifies (bcrypt_compare (access_code req) h)
   | None => false
   end)%bool.

Lemma login_answer :
  let r := AuthController.verifyAccessCode bcrypt_compare env req fresh in
  if accepted
  then statusCode r = 200 /\
       Observe.field "success" r = Some (JBool true) /\
       exists o, cookieOps r = [SetCookie "auth_session" (access_code req) o]
  else (statusCode r = 400 \/ statusCode r = 401 \/ statusCode r = 500) /\
       Observe.field "success" r = Some (JBool false) /\
       cookieOps r = [].
Proof.
  unfold accepted, AuthController.verifyAccessCode.
  destruct (JS.truthy (access_code req)); simpl; [|auto].
  destruct (JS.nonempty (ACCESS_CODE_HASH env)) as [h|]; simpl; [|auto 6].
  destruct (bcrypt_compare (access_code req) h) as [m|[e|] [|]]; simpl; eauto 6.
Qed.

Lemma login_cfg_answer :
  let r := AuthControllerCfg.verifyAccessCode bcrypt_compare url_hostname env req fresh in
  if accepted
  then statusCode r = 200 /\
       Observe.field "success" r = Some (JBool true) /\
       exists o, cookieOps r = [SetCookie "auth_session" (access_code req) o]
  else (statusCode r = 400 \/ statusCode r = 401 \/ statusCode r = 500) /\
       Observe.field "success" r = Some (JBool false) /\
       cookieOps r = [].
Proof.
  unfold accepted, AuthControllerCfg.verifyAccessCode.
  destruct (JS.truthy (access_code req)); simpl; [|auto].
  destruct (JS.nonempty (ACCESS_CODE_HASH env)) as [h|]; simpl; [|auto 6].
  destruct (bcrypt_compare (access_code req) h) as [m|[e|] [|]]; simpl; eauto 6.
Qed.


End LoginFacts.

(** X3.  In both copies of the controller the login sets a cookie only
    when it succeeds: if the submitted code is present, the hash is
    configured and the comparison calls back with a match, the answer is
    200 with [success: true] and exactly one cookie, [auth_session],
    whose value is the submitted code; in every other case the answer is
    400, 401 or 500 with [success: false] and no cookie at all. *)
Theorem login_sets_cookie_only_on_match
    (bcrypt_compare : JS.value -> string -> CompareOutcome)
    (url_hostname : string -> option string) (env : Env) (req : AuthRequest) :
  let accepted :=
    (JS.truthy (access_code req) &&
     match JS.nonempty (ACCESS_CODE_HASH env) with
     | Some h => GateSpec.verifies (bcrypt_compare (access_code req) h)
     | None => false
     end)%bool in
  let r := AuthController.verifyAccessCode bcrypt_compare env req fresh in
  let r' := AuthControllerCfg.verifyAccessCode bcrypt_compare url_hostname env req fresh in
  if accepted
  then (statusCode r = 200 /\
        Observe.field "success" r = Some (JBool true) /\
        exists o, cookieOps r = [SetCookie "auth_session" (access_code req) o]) /\
       (statusCode r' = 200 /\
        Observe.field "success" r' = Some (JBool true) /\
        exists o, cookieOps r' = [SetCookie "auth_session" (access_code req) o])
  else ((statusCode r = 400 \/ statusCode r = 401 \/ statusCode r = 500) /\
        Observe.field "success" r = Some (JBool false) /\
        cookieOps r = []) /\
       ((statusCode r' = 400 \/ statusCode r' = 401 \/ statusCode r' = 500) /\
        Observe.field "success" r' = Some (JBool false) /\
        cookieOps r' = []).
Proof.
  intros accepted r r'.
  pose proof (login_answer bcrypt_compare env req) as H.
  pose proof (login_cfg_answer bcrypt_compare url_hostname env req) as H'.
  cbv zeta in H, H'. fold accepted r in H. fold accepted r' in H'.
  destruct accepted; split; assumption.
Qed.



(** ** The record of image URLs *)





Section BatchFacts.

Variable getSignedUrl : S3Service.SignRequest -> Result string.
Variable env : Env.
Variable expiresIn : Z.

(** What [getPresignedImageUrl] returns for a filename. *)
Let issued (f : string) : option string :=
  match fst (S3Service.getPresignedImageUrl getSignedUrl env (Some f) expiresIn) with
  | Ok url => url
  | Throw _ _ => None
  end.



End BatchFacts.


(** ** Rows and keys *)




Lemma update_facts (p : Product) (v : ProductInput) (t : Table) (p' : Product) (t' : Table) :
  update p v t = Ok (p', t') ->
  id p' = id p /\
  rows t' = map (fun r => if id r =? id p then p' else r) (rows t) /\
  nextId t' = nextId t /\
  (ean p' = ean p \/ ean_taken (id p) (ean p') t = false).
Proof.
  unfold update, bind, when. intros H.
  destruct (if given (in_ean v) then check_null attr_ean _ else Ok tt); [|discriminate].
  destruct (if given (in_ean v) then check_empty attr_ean _ else Ok tt); [|discriminate].
  destruct (if given (in_available v) then check_null attr_available _ else Ok tt);
    [|discriminate].
  destruct (merge (Some (ean p)) (in_ean v)) as [e|]; [|discriminate].
  destruct (e =? ean p)%string eqn:Ee.
  - apply String.eqb_eq in Ee. injection H as <- <-. simpl. auto.
  - unfold check_unique in H. simpl in H.
    destruct (ean_taken (id p) e t) eqn:E; [discriminate|].
    injection H as <- <-. simpl. auto.
Qed.

(** Rewriting the row of one primary key keeps every primary key. *)
Lemma rewritten_ids (i : Z) (p' : Product) (l : list Product) :
  id p' = i ->
  map id (map (fun r => if id r =? i then p' else r) l) = map id l.
Proof.
  intros Hid. induction l as [|r l IH]; simpl; [reflexivity|].
  rewrite IH. f_equal. destruct (Z.eqb_spec (id r) i); congruence.
Qed.








(** Looking up another primary key after a rewrite or a removal. *)
Lemma findByPk_rewritten_other (i j : Z) (p' : Product) (rs : list Product) (n n' : Z) :
  id p' = i -> j <> i ->
  findByPk j (mkTable (map (fun r => if id r =? i then p' else r) rs) n')
  = findByPk j (mkTable rs n).
Proof.
  unfold findByPk. simpl. intros Hid Hne.
  induction rs as [|r rs IH]; simpl; [reflexivity|].
  destruct (Z.eqb_spec (id r) i) as [E|E].
  - rewrite Hid. destruct (Z.eqb_spec i j); [congruence|].
    destruct (Z.eqb_spec (id r) j); [congruence | exact IH].
  - destruct (id r =? j); [reflexivity | exact IH].
Qed.

Lemma findByPk_destroyed (p : Product) (t : Table) (j : Z) :
  findByPk j (destroy p t) = if j =? id p then None else findByPk j t.
Proof.
  unfold findByPk, destroy. simpl.
  induction (rows t) as [|r rs IH]; simpl.
  - now destruct (j =? id p).
  - destruct (Z.eqb_spec (id r) (id p)) as [E|E]; simpl.
    + rewrite IH. destruct (Z.eqb_spec j (id p)) as [F|F]; [reflexivity|].
      destruct (Z.eqb_spec (id r) j); [congruence | reflexivity].
    + destruct (Z.eqb_spec (id r) j) as [F|F].
      * subst j. destruct (Z.eqb_spec (id r) (id p)); [contradiction | reflexivity].
      * exact IH.
Qed.


(** ** The product handlers on the table *)


Lemma update_frame (p : Product) (v : ProductInput) (t : Table)
    (p' : Product) (t' : Table) :
  update p v t = Ok (p', t') ->
  (forall j, j <> id p -> findByPk j t' = findByPk j t) /\
  map id (rows t') = map id (rows t) /\
  nextId t' = nextId t.
Proof.
  intros H. apply update_facts in H as [Hp [Hr [Hn _]]].
  split; [|split].
  - intros j Hj. destruct t as [rs n], t' as [rs' n']. simpl in *. subst rs'.
    now apply findByPk_rewritten_other.
  - rewrite Hr. now apply rewritten_ids.
  - exact Hn.
Qed.

Section HandlerFacts.

Variable getSignedUrl : S3Service.SignRequest -> Result string.
Variable env : Env.

Let rendered := Observe.rendered getSignedUrl env.

(** What an answer of [updateProduct] for an existing row comes from. *)
Lemma updateProduct_outcome (i : Z) (v : ProductInput) (t : Table) (p : Product) :
  findByPk i t = Some p ->
  let answer := ProductController.updateProduct getSignedUrl env i v t fresh in
  (exists p',
     update p v t = Ok (p', snd answer) /\
     statusCode (fst answer) = 200 /\
     Observe.field "data" (fst answer) = Some (rendered p')) \/
  (exists n m,
     update p v t = Throw n m /\
     snd answer = t /\
     (statusCode (fst answer) = 400 \/ statusCode (fst answer) = 500) /\
     (statusCode (fst answer) = 400 <-> n = "SequelizeUniqueConstraintError")).
Proof.
  intros H. unfold ProductController.updateProduct. rewrite H. simpl.
  destruct (update p v t) as [[p' t']|n m] eqn:Eu; simpl.
  - left. rewrite withImageUrl_rendered. simpl. exists p'. auto.
  - right. exists n, m. split; [reflexivity|].
    destruct (String.eqb_spec n "SequelizeUniqueConstraintError"); simpl;
      (split; [reflexivity|]); (split; [auto|]); split; intros; (congruence || discriminate).
Qed.

(** The three handlers that rewrite one row: their table is the old one,
    or the result of an [update] of the row they found. *)
Lemma rewriting_handlers (i : Z) (t : Table) :
  forall t',
    (exists v, t' = snd (ProductController.updateProduct getSignedUrl env i v t fresh)) \/
    t' = snd (ProductController.toggleAvailability getSignedUrl env i t fresh) \/
    (exists c, t' = snd (ProductController.updateComments getSignedUrl env i c t fresh)) ->
    t' = t \/
    exists p v p', findByPk i t = Some p /\ update p v t = Ok (p', t').
Proof.
  intros t' [[v ->] | [-> | [c ->]]].
  - destruct (findByPk i t) as [p|] eqn:Ef.
    + destruct (updateProduct_outcome i v t p Ef) as [[p' [Eu _]] | [n [m [_ [Et _]]]]].
      * right. now exists p, v, p'.
      * now left.
    + left. unfold ProductController.updateProduct. now rewrite Ef.
  - destruct (findByPk i t) as [p|] eqn:Ef.
    + right. destruct (toggle_found getSignedUrl env i t p Ef) as [r [E _]].
      rewrite E. simpl. eexists p, _, _. split; [reflexivity|]. apply update_available.
    + left. unfold ProductController.toggleAvailability. now rewrite Ef.
  - destruct (findByPk i t) as [p|] eqn:Ef.
    + right. unfold ProductController.updateComments. rewrite Ef.
      assert (Hne : ProductController.or_null c <> Absent).
      { unfold ProductController.or_null. destruct (ProductController.field_truthy c) eqn:E;
          [|discriminate]. destruct c; simpl in E; discriminate. }
      rewrite (update_comments p _ t Hne). simpl. rewrite withImageUrl_rendered. simpl.
      eexists p, _, _. split; [reflexivity|]. now apply update_comments.
    + left. unfold ProductController.updateComments. now rewrite Ef.
Qed.

End HandlerFacts.



(** X7.  [createProduct] refuses a body whose [ean], [name] or [brand] is
    left out, null or empty: it answers 400 and stores nothing, before
    the table is consulted. *)
Theorem create_requires_ean_name_brand
    (getSignedUrl : S3Service.SignRequest -> Result string) (env : Env)
    (body : ProductInput) (t : Table) :
  ProductController.field_truthy (in_ean body) = false \/
  ProductController.field_truthy (in_name body) = false \/
  ProductController.field_truthy (in_brand body) = false ->
  let answer := ProductController.createProduct getSignedUrl env body t fresh in
  statusCode (fst answer) = 400 /\
  Observe.field "message" (fst answer)
    = Some (JStr "EAN, nombre y marca son campos requeridos") /\
  snd answer = t.
Proof.
  intros H. unfold ProductController.createProduct.
  assert (E : (negb (ProductController.field_truthy (in_ean body)) ||
               negb (ProductController.field_truthy (in_name body)) ||
               negb (ProductController.field_truthy (in_brand body)))%bool = true).
  { destruct H as [-> | [-> | ->]]; simpl;
      rewrite ?orb_true_r; reflexivity. }
  rewrite E. repeat split.
Qed.

(** A body with an empty name. *)
Lemma create_requires_ean_name_brand_witness :
  statusCode (fst (ProductController.createProduct Sample.sign Sample.env
    (mkProductInput (Given "7790009") (Given "") Absent (Given "Acme") Absent Absent
                    Absent Absent Absent Absent Absent Absent Absent)
    Sample.table fresh)) = 400.
Proof.
  exact (proj1 (create_requires_ean_name_brand Sample.sign Sample.env
    (mkProductInput (Given "7790009") (Given "") Absent (Given "Acme") Absent Absent
                    Absent Absent Absent Absent Absent Absent Absent)
    Sample.table (or_intror (or_introl eq_refl)))).
Defined.

Section CreateFacts.

Variable getSignedUrl : S3Service.SignRequest -> Result string.
Variable env : Env.


End CreateFacts.







(** X11.  [deleteProduct] of an existing id answers 200 and removes the
    row: the id can no longer be found, so a second delete and a read of
    it answer 404; every other id is found as before. *)
Theorem delete_removes_row
    (getSignedUrl : S3Service.SignRequest -> Result string) (env : Env)
    (i : Z) (t : Table) (p : Product) :
  findByPk i t = Some p ->
  let deleted := ProductController.deleteProduct i t fresh in
  statusCode (fst deleted) = 200 /\
  findByPk i (snd deleted) = None /\
  (forall j, j <> i -> findByPk j (snd deleted) = findByPk j t) /\
  statusCode (fst (ProductController.deleteProduct i (snd deleted) fresh)) = 404 /\
  statusCode (ProductController.getProductById getSignedUrl env i (snd deleted) fresh) = 404.
Proof.
  intros H deleted.
  assert (Hid : id p = i) by now apply findByPk_id in H.
  assert (Hd : deleted = (fresh |> json (JObj [
                            ("success", JBool true);
                            ("message", JStr "Producto eliminado exitosamente")]),
                          destroy p t)).
  { unfold deleted, ProductController.deleteProduct. now rewrite H. }
  assert (Hgone : findByPk i (destroy p t) = None).
  { rewrite findByPk_destroyed, Hid. now rewrite Z.eqb_refl. }
  rewrite Hd. cbn [fst snd]. split; [reflexivity|]. split; [exact Hgone|]. split; [|split].
  - intros j Hj. rewrite findByPk_destroyed, Hid.
    destruct (Z.eqb_spec j i); [contradiction | reflexivity].
  - unfold ProductController.deleteProduct. now rewrite Hgone.
  - unfold ProductController.getProductById. now rewrite Hgone.
Qed.

(** The second sample product, deleted. *)
Lemma delete_removes_row_witness :
  let deleted := ProductController.deleteProduct 2 Sample.table fresh in
  findByPk 2 (snd deleted) = None /\
  findByPk 3 (snd deleted) = Some Sample.comb.
Proof.
  intros deleted.
  pose proof (delete_removes_row Sample.sign Sample.env 2 Sample.table Sample.brush eq_refl)
    as [_ [Hgone [Hother _]]].
  split; [exact Hgone | exact (Hother 3 ltac:(discriminate))].
Defined.

(** X12.  An update, a toggle and a change of comments touch one row
    only: whatever the request and its outcome, every other id is found
    as before, the list of primary keys of the table is the same (no row
    is added or removed) and the auto-increment counter does not move. *)
Theorem rewrites_touch_one_row
    (getSignedUrl : S3Service.SignRequest -> Result string) (env : Env)
    (i : Z) (t : Table) (body : ProductInput) (comments : Field string) (t' : Table) :
  t' = snd (ProductController.updateProduct getSignedUrl env i body t fresh) \/
  t' = snd (ProductController.toggleAvailability getSignedUrl env i t fresh) \/
  t' = snd (ProductController.updateComments getSignedUrl env i comments t fresh) ->
  (forall j, j <> i -> findByPk j t' = findByPk j t) /\
  map id (rows t') = map id (rows t) /\
  nextId t' = nextId t.
Proof.
  intros H.
  assert (Hr : t' = t \/
               exists p v p', findByPk i t = Some p /\ update p v t = Ok (p', t')).
  { apply (rewriting_handlers getSignedUrl env i t).
    destruct H as [H | [H | H]]; [left; now exists body | right; now left |
                                  right; right; now exists comments]. }
  destruct Hr as [-> | [p [v [p' [Ef Eu]]]]]; [auto|].
  apply findByPk_id in Ef as [Hid _]. subst i.
  now apply (update_frame p v t p' t').
Qed.

(** Toggling the first sample product leaves the third alone. *)
Lemma rewrites_touch_one_row_witness :
  findByPk 3 (snd (ProductController.toggleAvailability Sample.sign Sample.env 1
                     Sample.table fresh)) = Some Sample.comb.
Proof.
  exact (proj1 (rewrites_touch_one_row Sample.sign Sample.env 1 Sample.table
                  (mkProductInput Absent Absent Absent Absent Absent Absent Absent Absent
                                  Absent Absent Absent Absent Absent)
                  Absent _ (or_intror (or_introl eq_refl))) 3 ltac:(discriminate)).
Defined.





(** ** The lists of brands and categories *)
















(** ** Paging through the list *)


Section PagingFacts.

Variable getSignedUrl : S3Service.SignRequest -> Result string.
Variable env : Env.
Variable q : ListQuery.
Variable t : Table.
Variable limit : string.
Variable l : Z.

Hypothesis limit_given : JS.nonempty (q_limit q) = Some limit.
Hypothesis limit_parsed : JS.parseInt limit = JS.Num l.
Hypothesis limit_positive : 1 <= l.

Let answer (page : string) : Response :=
  ProductController.getAllProducts getSignedUrl env (with_page page q) t fresh.



End PagingFacts.



(** ** The image of a product *)

(** X18.  The [data] a handler sends for a product has the product's
    columns and an [image_url]: with a configured bucket it is the URL
    signed, for one hour, for the product's own [image_filename] when that
    is non-empty and for [placeholder.webp] otherwise, or null when the
    signing fails; without a configured bucket it is always null. *)
Theorem product_image_or_placeholder
    (getSignedUrl : S3Service.SignRequest -> Result string) (env : Env)
    (i : Z) (t : Table) (p : Product) :
  findByPk i t = Some p ->
  let r := ProductController.getProductById getSignedUrl env i t fresh in
  let key := JS.or_default (image_filename p) "placeholder.webp" in
  exists data image_url,
    Observe.field "data" r = Some data /\
    Json.get "id" data = Some (JNum (id p)) /\
    Json.get "ean" data = Some (JStr (ean p)) /\
    Json.get "image_url" data = Some (of_opt_string image_url) /\
    (forall bucket,
       JS.nonempty (S3_BUCKET env) = Some bucket ->
       image_url = match getSignedUrl (S3Service.mkSignRequest bucket key 3600) with
                   | Ok signed => Some signed
                   | Throw _ _ => None
                   end) /\
    (JS.opt_truthy (S3_BUCKET env) = false -> image_url = None).
Proof.
  intros Hf r key.
  exists (Observe.rendered getSignedUrl env p), (Observe.image_url_of getSignedUrl env p).
  split.
  { unfold r, ProductController.getProductById. rewrite Hf. simpl.
    rewrite withImageUrl_rendered. reflexivity. }
  split; [reflexivity|]. split; [reflexivity|]. split; [reflexivity|].
  assert (Hkey : JS.nonempty (Some key) = Some key).
  { unfold key, JS.or_default, JS.nonempty.
    destruct (image_filename p) as [f|]; [|reflexivity].
    destruct (JS.str_truthy f) eqn:E; [now rewrite E | reflexivity]. }
  unfold Observe.image_url_of. fold key. split.
  - intros bucket Hb. now rewrite (issuer_signs getSignedUrl env (Some key) 3600 key bucket).
  - intros Hb. now rewrite (issuer_guard getSignedUrl env (Some key) 3600 (or_intror Hb)).
Qed.

(** The first sample product has no image: it shows the placeholder. *)
Lemma product_image_or_placeholder_witness :
  exists data,
    Observe.field "data"
      (ProductController.getProductById Sample.sign Sample.env 1 Sample.table fresh)
    = Some data /\
    Json.get "image_url" data
    = Some (JStr "https://lacosta-images.s3.amazonaws.com/placeholder.webp?X-Amz-Expires=3600").
Proof.
  destruct (product_image_or_placeholder Sample.sign Sample.env 1 Sample.table Sample.soap
              eq_refl) as [data [u [Hd [_ [_ [Hu [Hb _]]]]]]].
  exists data. split; [exact Hd|].
  rewrite Hu, (Hb "lacosta-images" eq_refl). reflexivity.
Defined.

(** ** The protected routes *)

Section ApiFacts.

Variable bcrypt_compare : JS.value -> string -> CompareOutcome.
Variable getSignedUrl : S3Service.SignRequest -> Result string.
Variable env : Env.
Variable cookies : option (list (string * JS.value)).

Lemma gate_flow :
  match Auth.requireAuth bcrypt_compare env cookies fresh with
  | Responded res =>
      GateSpec.session_verifies bcrypt_compare env cookies = false /\
      (statusCode res = 401 \/ statusCode res = 500) /\
      Observe.field "success" res = Some (JBool false) /\
      Observe.field "data" res = None
  | Next authenticated =>
      GateSpec.session_verifies bcrypt_compare env cookies = true /\ authenticated = true
  | Escaped => GateSpec.session_verifies bcrypt_compare env cookies = false
  end.
Proof.
  unfold Auth.requireAuth, GateSpec.session_verifies, GateSpec.verifies.
  destruct (JS.truthy (cookie_of cookies "auth_session")); simpl; [|auto 6].
  destruct (JS.nonempty (ACCESS_CODE_HASH env)) as [h|]; simpl; [|auto 6].
  destruct (bcrypt_compare (cookie_of cookies "auth_session") h) as [m|[e|] [|]];
    simpl; auto 6.
Qed.

Lemma errorHandler_answer (message : string) :
  let res := Index.errorHandler env message fresh in
  statusCode res = 500 /\
  Observe.field "success" res = Some (JBool false) /\
  Observe.field "data" res = None.
Proof.
  unfold Index.errorHandler. destruct (NODE_ENV env) as [v|]; simpl.
  - destruct (v =? "development")%string; simpl; auto.
  - auto.
Qed.

End ApiFacts.

(** X19.  No protected route is served without a valid session.  For
    every request under [/api] that reaches the product router, matched
    or not: unless the session cookie is present and verifies against the
    configured hash, the answer is 401 or 500 with [success: false] and
    no [data], and the table is left as it was; without any cookie it is
    401, also for a path no route matches.  With a valid session a path
    no route matches is answered 404 [Ruta no encontrada], and a matched
    route is answered by its handler. *)
Theorem api_requires_session
    (bcrypt_compare : JS.value -> string -> CompareOutcome)
    (getSignedUrl : S3Service.SignRequest -> Result string) (env : Env)
    (cookies : option (list (string * JS.value))) (route : Index.ProductRoute) (t : Table) :
  let answer := Index.protectedApi bcrypt_compare getSignedUrl env cookies route t in
  let valid := GateSpec.session_verifies bcrypt_compare env cookies in
  (valid = false ->
   (statusCode (fst answer) = 401 \/ statusCode (fst answer) = 500) /\
   Observe.field "success" (fst answer) = Some (JBool false) /\
   Observe.field "data" (fst answer) = None /\
   snd answer = t) /\
  (JS.truthy (cookie_of cookies "auth_session") = false -> statusCode (fst answer) = 401) /\
  (valid = true ->
   match Index.productRoutes getSignedUrl env route t fresh with
   | Some served => answer = served
   | None =>
       statusCode (fst answer) = 404 /\
       Observe.field "message" (fst answer) = Some (JStr "Ruta no encontrada") /\
       snd answer = t
   end).
Proof.
  intros answer valid.
  pose proof (gate_flow bcrypt_compare env cookies) as G.
  pose proof (gate_no_cookie bcrypt_compare env cookies) as N.
  unfold answer, Index.protectedApi, valid.
  destruct (Auth.requireAuth bcrypt_compare env cookies fresh) as [res|a|]; simpl in *.
  - destruct G as [Hv [Hs [Hsu Hd]]]. split; [|split].
    + intros _. auto.
    + intros Hc. specialize (N Hc). now injection N.
    + intros Hv'. congruence.
  - destruct G as [Hv _]. split; [|split].
    + intros Hv'. congruence.
    + intros Hc. specialize (N Hc). discriminate.
    + intros _. destruct (Index.productRoutes getSignedUrl env route t fresh);
        [reflexivity | repeat split].
  - split; [|split].
    + intros _.
      destruct (errorHandler_answer env (Index.escaped_message bcrypt_compare env cookies))
        as [Hs [Hsu Hd]]. auto.
    + intros Hc. specialize (N Hc). discriminate.
    + intros Hv'. congruence.
Qed.

(** A delete without a cookie, and an unknown path with the right cookie. *)
Lemma api_requires_session_witness :
  (let answer :=
     Index.protectedApi Sample.compare Sample.sign Sample.env None
       (Index.DeleteProduct 1) Sample.table in
   statusCode (fst answer) = 401 /\ snd answer = Sample.table) /\
  statusCode (fst (Index.protectedApi Sample.compare Sample.sign Sample.env
                     (Some [("auth_session", JS.VStr "lacosta")])
                     Index.NoRoute Sample.table)) = 404.
Proof.
  split.
  - pose proof (api_requires_session Sample.compare Sample.sign Sample.env None
                  (Index.DeleteProduct 1) Sample.table) as [Hinvalid [Hnone _]].
    split; [exact (Hnone eq_refl) | exact (proj2 (proj2 (proj2 (Hinvalid eq_refl))))].
  - pose proof (api_requires_session Sample.compare Sample.sign Sample.env
                  (Some [("auth_session", JS.VStr "lacosta")])
                  Index.NoRoute Sample.table) as [_ [_ Hvalid]].
    exact (proj1 (Hvalid eq_refl)).
Defined.

(** ** Cross-origin requests *)

(** X20.  The [origin] callback of the CORS options allows every origin:
    whatever the [Origin] header, it calls back without an error and with
    [allow] true.  The allow list only decides whether a warning is
    logged: none for a request without origin or from a listed origin,
    one for any other origin. *)
Theorem cors_allows_every_origin (env : Env) (origin : option string) :
  fst (Index.corsOrigin env origin) = (None, true) /\
  (snd (Index.corsOrigin env origin) = [] <->
   JS.opt_truthy origin = false \/
   exists o, origin = Some o /\ In o (Index.allowedOrigins env)).
Proof.
  unfold Index.corsOrigin.
  destruct (JS.nonempty origin) as [o|] eqn:E.
  - apply nonempty_some in E as [-> Ht].
    destruct (existsb (fun allowed => (allowed =? o)%string) (Index.allowedOrigins env))
      eqn:Ex; simpl; (split; [reflexivity|]).
    + split; [|reflexivity]. intros _. right. exists o. split; [reflexivity|].
      apply existsb_exists in Ex as [a [Ha Hao]]. apply String.eqb_eq in Hao. now subst.
    + split; [discriminate|]. intros [H | [o' [Ho Hin]]].
      * simpl in H. congruence.
      * injection Ho as <-.
        assert (Hex : existsb (fun allowed => (allowed =? o)%string)
                              (Index.allowedOrigins env) = true).
        { apply existsb_exists. exists o. split; [assumption | apply String.eqb_refl]. }
        congruence.
  - apply nonempty_none_iff in E. simpl. split; [reflexivity|]. split; auto.
Qed.

(** ** The total of a paged answer *)


